(** * Mergington High School activities API: signup / unregister / listing

    A shallow embedding of [src/database.py] (the three SQLAlchemy models,
    the session of [get_db], the seed of [init_db]) and of [src/app.py]
    (the three request handlers), followed by the properties of the
    student-activity relationship that the handlers maintain.

    Conventions of the embedding:
    - a table is the list of its rows in rowid order, the order in which a
      query without [ORDER BY] scans it; the engine the code defaults to
      (SQLite, [INTEGER PRIMARY KEY]) hands a new row the key after the
      largest in use, so appending keeps that order. That holds while the
      keys in use are below the largest key the engine has ([max_rowid]);
      beyond, the engine picks a free key at random, and the properties
      below then say nothing of the key or the place of a new row;
    - a [Session] is a unit of work: the persisted store, the view of the
      open transaction (what flushed statements have produced), and the
      objects added or deleted but not flushed yet ([autoflush=False]);
    - a handler is a computation in the monad [M] (session state plus
      exceptions); [get_db] is the [get_db] dependency, which opens a
      session for the handler and closes it whatever the handler did;
    - [datetime.utcnow] is a reading of the clock given to the request. *)

From stdpp Require Import base option list strings gmap.
From Stdlib Require Import ZArith Lia.

Local Open Scope Z_scope.

(** ** database.py: models *)

Record Activity := mkActivity {
  Activity_id : Z;
  Activity_name : string;
  Activity_description : string;
  Activity_schedule : string;
  Activity_max_participants : Z;
  Activity_created_at : Z;
  Activity_updated_at : Z
}.

Record Student := mkStudent {
  Student_id : Z;
  Student_email : string;
  Student_name : option string;
  Student_grade_level : option string;
  Student_created_at : Z
}.

Record Registration := mkRegistration {
  Registration_id : Z;
  Registration_student_id : Z;
  Registration_activity_id : Z;
  Registration_registered_at : Z
}.

#[global] Instance Activity_eq_dec : EqDecision Activity.
Proof. solve_decision. Defined.
#[global] Instance Student_eq_dec : EqDecision Student.
Proof. solve_decision. Defined.
#[global] Instance Registration_eq_dec : EqDecision Registration.
Proof. solve_decision. Defined.

(** The three tables. *)
Record Store := mkStore {
  activities : list Activity;
  students : list Student;
  registrations : list Registration
}.

Definition empty_store : Store := mkStore [] [] [].

(** A transient object: built by a model's constructor, not yet given a
    primary key. Columns left out of the constructor call are [None]. *)
Inductive Obj :=
| NewActivity (name description schedule : string) (max_participants : Z)
| NewStudent (email : string) (name grade_level : option string)
| NewRegistration (student_id activity_id : option Z).

Inductive Exn :=
| HTTPException (status_code : Z) (detail : string)
| IntegrityError
| AttributeError
| KeyError.

Inductive Result (A : Type) :=
| Ok (a : A)
| Raise (e : Exn).
Arguments Ok {A} a.
Arguments Raise {A} e.

(** The largest key the engine has for a row. *)
Definition max_rowid : Z := 2 ^ 63 - 1.

(** Primary key of the next row, as the engine hands it out for an
    [INTEGER PRIMARY KEY] column: [1] in an empty table, otherwise one
    more than the largest key in use, whatever its sign. The rule covers
    the tables whose keys are below [max_rowid]. Once [max_rowid] itself
    is in use the engine picks an unused key at random, and the row takes
    its place in key order; no value and no place is stated of a new row
    then: the properties that name the key of a new row or its position
    in the table assume the keys in use are below [max_rowid], the others
    leave the key and the position open. *)
Definition next_id (ids : list Z) : Z :=
  match ids with
  | [] => 1
  | k :: ks => 1 + foldr Z.max k ks
  end.

(** [INSERT] of one object into the transaction's view. The unique indexes
    on [activities.name] and [students.email] are the two constraints of
    the schema that an insert of the first two models can violate. The
    columns of [registrations] are [nullable=False] and carry no unique
    index; its foreign keys are not checked by the engine. The [id]
    attribute of an object that was never flushed is [None]. The row gets
    the key [next_id] and the last place of its table, which is what the
    engine gives it while the keys in use are below [max_rowid]. *)
Definition insert (now : Z) (o : Obj) (st : Store) : Result (Z * Store) :=
  match o with
  | NewActivity name description schedule max_participants =>
      if decide (name ∈ Activity_name <$> activities st) then Raise IntegrityError
      else
        let k := next_id (Activity_id <$> activities st) in
        Ok (k, mkStore
                 (activities st ++
                    [mkActivity k name description schedule max_participants now now])
                 (students st) (registrations st))
  | NewStudent email name grade_level =>
      if decide (email ∈ Student_email <$> students st) then Raise IntegrityError
      else
        let k := next_id (Student_id <$> students st) in
        Ok (k, mkStore (activities st)
                 (students st ++ [mkStudent k email name grade_level now])
                 (registrations st))
  | NewRegistration (Some student_id) (Some activity_id) =>
      let k := next_id (Registration_id <$> registrations st) in
      Ok (k, mkStore (activities st) (students st)
               (registrations st ++ [mkRegistration k student_id activity_id now]))
  | NewRegistration _ _ => Raise IntegrityError
  end.

(** [DELETE FROM registrations WHERE id = ?]. *)
Definition delete_registration (r : Registration) (st : Store) : Store :=
  mkStore (activities st) (students st)
    (filter (λ x, Registration_id x ≠ Registration_id r) (registrations st)).

(** ** database.py: the session *)

Record Session := mkSession {
  persisted : Store;
  txn : Store;
  new : list Obj;
  deleted : list Registration;
  utcnow : Z
}.

Definition M (A : Type) : Type := Session → Result A * Session.

Definition ret {A} (a : A) : M A := λ s, (Ok a, s).
Definition bind {A B} (m : M A) (k : A → M B) : M B := λ s,
  match m s with
  | (Ok a, s') => k a s'
  | (Raise e, s') => (Raise e, s')
  end.
Definition raise {A} (e : Exn) : M A := λ s, (Raise e, s).

Declare Scope session_scope.
Delimit Scope session_scope with session.
Notation "x <- m ;; k" := (bind m (λ x, k))
  (at level 100, m at next level, right associativity) : session_scope.
Notation "m ;;; k" := (bind m (λ _, k))
  (at level 100, right associativity) : session_scope.
Local Open Scope session_scope.

(** [db.query(Model)]: the rows the open transaction sees. Pending objects
    are not among them, the session does not flush before a query. *)
Definition query {A} (table : Store → list A) : M (list A) :=
  λ s, (Ok (table (txn s)), s).

(** [.first()] *)
Definition first {A} (rows : list A) : option A := head rows.

(** [db.add(obj)] *)
Definition db_add (o : Obj) : M unit :=
  λ s, (Ok (), mkSession (persisted s) (txn s) (new s ++ [o]) (deleted s) (utcnow s)).

(** [db.delete(registration)] *)
Definition db_delete (r : Registration) : M unit :=
  λ s, (Ok (), mkSession (persisted s) (txn s) (new s) (deleted s ++ [r]) (utcnow s)).

(** The inserts of a flush, in the order the objects were added; the keys
    handed out are returned in that order. *)
Fixpoint flush_new (now : Z) (os : list Obj) (st : Store) : Result (list Z) * Store :=
  match os with
  | [] => (Ok [], st)
  | o :: os =>
      match insert now o st with
      | Raise e => (Raise e, st)
      | Ok (k, st') =>
          match flush_new now os st' with
          | (Ok ks, st'') => (Ok (k :: ks), st'')
          | (Raise e, st'') => (Raise e, st'')
          end
      end
  end.

(** [db.flush()]: inserts first, deletes after. The result lists the
    primary keys the added objects have received. *)
Definition db_flush : M (list Z) := λ s,
  match flush_new (utcnow s) (new s) (txn s) with
  | (Ok ks, st) =>
      (Ok ks, mkSession (persisted s) (foldr delete_registration st (deleted s))
                [] [] (utcnow s))
  | (Raise e, st) => (Raise e, mkSession (persisted s) st [] (deleted s) (utcnow s))
  end.

(** [db.commit()]: flush, then make the transaction's view the persisted
    store. *)
Definition db_commit : M unit :=
  _ <- db_flush ;;
  λ s, (Ok (), mkSession (txn s) (txn s) (new s) (deleted s) (utcnow s)).

(** [get_db]: a fresh session on the store for the handler, closed in the
    [finally] whether the handler returned or raised. Closing drops what
    was not committed. *)
Definition SessionLocal (now : Z) (db : Store) : Session := mkSession db db [] [] now.
Definition close (s : Session) : Store := persisted s.

Definition get_db {A} (handler : M A) (now : Z) (db : Store) : Result A * Store :=
  let '(r, s) := handler (SessionLocal now db) in (r, close s).

(** A [for] loop over a list that threads an accumulator. *)
Fixpoint for_each {A S} (l : list A) (body : S → A → M S) (acc : S) : M S :=
  match l with
  | [] => ret acc
  | x :: l => acc' <- body acc x ;; for_each l body acc'
  end.

(** A list comprehension whose element expression may raise. *)
Fixpoint comprehension {A B} (f : A → M B) (l : list A) : M (list B) :=
  match l with
  | [] => ret []
  | x :: l => y <- f x ;; ys <- comprehension f l ;; ret (y :: ys)
  end.

(** The two relationships the handlers follow; each is a lazy load, a
    [SELECT] in the session of the object. *)
Definition Activity_registrations (activity : Activity) : M (list Registration) :=
  rows <- query registrations ;;
  ret (filter (λ r, Registration_activity_id r = Activity_id activity) rows).

Definition Registration_student (reg : Registration) : M (option Student) :=
  rows <- query students ;;
  ret (first (filter (λ s, Student_id s = Registration_student_id reg) rows)).

(** ** database.py: init_db *)

Definition initial_activities : list (string * string * string * Z) :=
  [ ("Chess Club", "Learn strategies and compete in chess tournaments",
     "Fridays, 3:30 PM - 5:00 PM", 12);
    ("Programming Class", "Learn programming fundamentals and build software projects",
     "Tuesdays and Thursdays, 3:30 PM - 4:30 PM", 20);
    ("Gym Class", "Physical education and sports activities",
     "Mondays, Wednesdays, Fridays, 2:00 PM - 3:00 PM", 30);
    ("Soccer Team", "Join the school soccer team and compete in matches",
     "Tuesdays and Thursdays, 4:00 PM - 5:30 PM", 22);
    ("Basketball Team", "Practice and play basketball with the school team",
     "Wednesdays and Fridays, 3:30 PM - 5:00 PM", 15);
    ("Art Club", "Explore your creativity through painting and drawing",
     "Thursdays, 3:30 PM - 5:00 PM", 15);
    ("Drama Club", "Act, direct, and produce plays and performances",
     "Mondays and Wednesdays, 4:00 PM - 5:30 PM", 20);
    ("Math Club", "Solve challenging problems and participate in math competitions",
     "Tuesdays, 3:30 PM - 4:30 PM", 10);
    ("Debate Team", "Develop public speaking and argumentation skills",
     "Fridays, 4:00 PM - 5:30 PM", 12) ].

Definition initial_students : list (string * string) :=
  [ ("michael@mergington.edu", "Michael"); ("daniel@mergington.edu", "Daniel");
    ("emma@mergington.edu", "Emma"); ("sophia@mergington.edu", "Sophia");
    ("john@mergington.edu", "John"); ("olivia@mergington.edu", "Olivia");
    ("liam@mergington.edu", "Liam"); ("noah@mergington.edu", "Noah");
    ("ava@mergington.edu", "Ava"); ("mia@mergington.edu", "Mia");
    ("amelia@mergington.edu", "Amelia"); ("harper@mergington.edu", "Harper");
    ("ella@mergington.edu", "Ella"); ("scarlett@mergington.edu", "Scarlett");
    ("james@mergington.edu", "James"); ("benjamin@mergington.edu", "Benjamin");
    ("charlotte@mergington.edu", "Charlotte"); ("henry@mergington.edu", "Henry") ].

Definition initial_registrations : list (string * list string) :=
  [ ("Chess Club", ["michael@mergington.edu"; "daniel@mergington.edu"]);
    ("Programming Class", ["emma@mergington.edu"; "sophia@mergington.edu"]);
    ("Gym Class", ["john@mergington.edu"; "olivia@mergington.edu"]);
    ("Soccer Team", ["liam@mergington.edu"; "noah@mergington.edu"]);
    ("Basketball Team", ["ava@mergington.edu"; "mia@mergington.edu"]);
    ("Art Club", ["amelia@mergington.edu"; "harper@mergington.edu"]);
    ("Drama Club", ["ella@mergington.edu"; "scarlett@mergington.edu"]);
    ("Math Club", ["james@mergington.edu"; "benjamin@mergington.edu"]);
    ("Debate Team", ["charlotte@mergington.edu"; "henry@mergington.edu"]) ].

(** [d[key]] on a dict from names to objects, an object being known here
    by its [id] attribute. *)
Definition getitem (d : gmap string (option Z)) (key : string) : M (option Z) :=
  match d !! key with
  | Some v => ret v
  | None => raise KeyError
  end.

(** The body of [init_db]'s [try]. The session it runs in is opened and
    closed like a request's; an exception leaves nothing committed. *)
Definition init_db_body : M unit :=
  rows <- query activities ;;
  if decide (0 < length rows)%nat then ret ()
  else
    activity_map <-
      for_each initial_activities
        (λ activity_map '(name, description, schedule, max_participants),
           db_add (NewActivity name description schedule max_participants) ;;;
           ks <- db_flush ;;
           ret (<[name := last ks]> activity_map)) ∅ ;;
    student_map <-
      for_each initial_students
        (λ student_map '(email, name),
           db_add (NewStudent email (Some name) None) ;;;
           ks <- db_flush ;;
           ret (<[email := last ks]> student_map)) ∅ ;;
    for_each initial_registrations
      (λ _ '(activity_name, student_emails),
         activity_id <- getitem activity_map activity_name ;;
         for_each student_emails
           (λ _ email,
              student_id <- getitem student_map email ;;
              db_add (NewRegistration student_id activity_id)) ()) () ;;;
    db_commit.

Definition init_db (now : Z) (db : Store) : Result unit * Store :=
  get_db init_db_body now db.

(** ** app.py: the handlers *)

Record ActivityInfo := mkActivityInfo {
  description : string;
  schedule : string;
  max_participants : Z;
  participants : list string
}.

(** [GET /activities]: "Get all activities with participant information".
    [result] is the dict the handler returns, keyed by activity name. *)
Definition get_activities : M (gmap string ActivityInfo) :=
  activities_list <- query activities ;;
  for_each activities_list
    (λ result activity,
       regs <- Activity_registrations activity ;;
       participants <-
         comprehension
           (λ reg,
              student <- Registration_student reg ;;
              match student with
              | Some student => ret (Student_email student)
              | None => raise AttributeError
              end) regs ;;
       ret (<[Activity_name activity :=
                mkActivityInfo (Activity_description activity)
                  (Activity_schedule activity)
                  (Activity_max_participants activity)
                  participants]> result)) ∅.

(** [POST /activities/{activity_name}/signup]: "Sign up a student for an
    activity". [student_id] is [student.id]: the key of the row found, or
    the key the flush has given the student just added. The value is the
    [message] of the response. *)
Definition signup_for_activity (activity_name email : string) : M string :=
  rows <- query students ;;
  student_id <-
    match first (filter (λ s, Student_email s = email) rows) with
    | Some student => ret (Some (Student_id student))
    | None =>
        db_add (NewStudent email None None) ;;;
        ks <- db_flush ;;
        ret (last ks)
    end ;;
  rows <- query activities ;;
  match first (filter (λ a, Activity_name a = activity_name) rows) with
  | None => raise (HTTPException 404 "Activity not found")
  | Some activity =>
      rows <- query registrations ;;
      match first (filter (λ r, Some (Registration_student_id r) = student_id
                                ∧ Registration_activity_id r = Activity_id activity)
                     rows) with
      | Some _ => raise (HTTPException 400 "Student is already signed up")
      | None =>
          db_add (NewRegistration student_id (Some (Activity_id activity))) ;;;
          db_commit ;;;
          ret ("Signed up " +:+ email +:+ " for " +:+ activity_name)
      end
  end.

(** [DELETE /activities/{activity_name}/unregister]: "Unregister a student
    from an activity". *)
Definition unregister_from_activity (activity_name email : string) : M string :=
  rows <- query students ;;
  match first (filter (λ s, Student_email s = email) rows) with
  | None => raise (HTTPException 400 "Student not found")
  | Some student =>
      rows <- query activities ;;
      match first (filter (λ a, Activity_name a = activity_name) rows) with
      | None => raise (HTTPException 404 "Activity not found")
      | Some activity =>
          rows <- query registrations ;;
          match first (filter (λ r, Registration_student_id r = Student_id student
                                    ∧ Registration_activity_id r = Activity_id activity)
                         rows) with
          | None => raise (HTTPException 400 "Student is not signed up for this activity")
          | Some registration =>
              db_delete registration ;;;
              db_commit ;;;
              ret ("Unregistered " +:+ email +:+ " from " +:+ activity_name)
          end
      end
  end.

(** ** The service: startup, then requests *)

(** The store a fresh deployment starts from: [init_db] on an empty
    database. *)
Definition seed (now : Z) : Store := (init_db now empty_store).2.

Inductive Request :=
| GetActivities
| Signup (activity_name email : string)
| Unregister (activity_name email : string).

Inductive Response :=
| Listing (result : gmap string ActivityInfo)
| Message (message : string).

Definition respond {A} (f : A → Response) (out : Result A * Store) : Result Response * Store :=
  (match out.1 with Ok a => Ok (f a) | Raise e => Raise e end, out.2).

Definition serve (req : Request) (now : Z) (db : Store) : Result Response * Store :=
  match req with
  | GetActivities => respond Listing (get_db get_activities now db)
  | Signup activity_name email =>
      respond Message (get_db (signup_for_activity activity_name email) now db)
  | Unregister activity_name email =>
      respond Message (get_db (unregister_from_activity activity_name email) now db)
  end.

(** The stores the service can be in: the seed, then any request, and any
    restart of the process (the startup hook runs [init_db] again). *)
Inductive reachable : Store → Prop :=
| reach_seed now : reachable (seed now)
| reach_serve req now db : reachable db → reachable (serve req now db).2
| reach_restart now db : reachable db → reachable (init_db now db).2.

(** ** What the handlers compute, read off a store

    The queries and loops of the handlers as functions of the store the
    session sees; the lemmas of the section on running the handlers tie
    each one to the handler it is taken from. *)

Definition student_by_email (st : Store) (email : string) : option Student :=
  first (filter (λ s, Student_email s = email) (students st)).

Definition activity_by_name (st : Store) (activity_name : string) : option Activity :=
  first (filter (λ a, Activity_name a = activity_name) (activities st)).

Definition registration_for (st : Store) (student_id activity_id : Z) : option Registration :=
  first (filter (λ r, Registration_student_id r = student_id
                      ∧ Registration_activity_id r = activity_id)
           (registrations st)).

(** [reg.student] and [activity.registrations] *)
Definition student_of (st : Store) (reg : Registration) : option Student :=
  first (filter (λ s, Student_id s = Registration_student_id reg) (students st)).

Definition registrations_of (st : Store) (activity : Activity) : list Registration :=
  filter (λ r, Registration_activity_id r = Activity_id activity) (registrations st).

(** [[reg.student.email for reg in regs]] *)
Fixpoint emails_of (st : Store) (regs : list Registration) : Result (list string) :=
  match regs with
  | [] => Ok []
  | reg :: regs =>
      match student_of st reg with
      | None => Raise AttributeError
      | Some student =>
          match emails_of st regs with
          | Ok es => Ok (Student_email student :: es)
          | Raise e => Raise e
          end
      end
  end.

Definition info_of (activity : Activity) (ps : list string) : ActivityInfo :=
  mkActivityInfo (Activity_description activity) (Activity_schedule activity)
    (Activity_max_participants activity) ps.

(** The loop of [get_activities] from a given [result] on. *)
Fixpoint listing_from (st : Store) (l : list Activity) (result : gmap string ActivityInfo)
  : Result (gmap string ActivityInfo) :=
  match l with
  | [] => Ok result
  | activity :: l =>
      match emails_of st (registrations_of st activity) with
      | Ok ps => listing_from st l (<[Activity_name activity := info_of activity ps]> result)
      | Raise e => Raise e
      end
  end.

Definition listing (st : Store) : Result (gmap string ActivityInfo) :=
  listing_from st (activities st) ∅.

(** [reg.student.email] where the student is there. *)
Definition email_of (st : Store) (reg : Registration) : string :=
  from_option Student_email "" (student_of st reg).

(** The first step of signup ("Get or create student"): the student's
    key, and the store once the student is in it. *)
Definition get_or_create_student (now : Z) (email : string) (st : Store) : Z * Store :=
  match student_by_email st email with
  | Some student => (Student_id student, st)
  | None =>
      let k := next_id (Student_id <$> students st) in
      (k, mkStore (activities st)
            (students st ++ [mkStudent k email None None now])
            (registrations st))
  end.

(** The row signup inserts, and the store with it. *)
Definition new_registration (now : Z) (student_id activity_id : Z) (st : Store) : Registration :=
  mkRegistration (next_id (Registration_id <$> registrations st)) student_id activity_id now.

Definition add_registration (now : Z) (student_id activity_id : Z) (st : Store) : Store :=
  mkStore (activities st) (students st)
    (registrations st ++ [new_registration now student_id activity_id st]).

(** ** Vocabulary of the properties *)

(** The participants [GET /activities] reports for an activity name, if the
    request succeeds and the name is in its result. *)
Definition listed_participants (now : Z) (db : Store) (activity_name : string)
  : option (list string) :=
  match (get_db get_activities now db).1 with
  | Ok result => participants <$> result !! activity_name
  | Raise _ => None
  end.

(** The number of entries of a participant list that are a given email. *)
Definition occurrences (email : string) (ps : list string) : nat :=
  length (filter (λ e, e = email) ps).

(** The (student, activity) pair a registration links. *)
Definition pair_of (r : Registration) : Z * Z :=
  (Registration_student_id r, Registration_activity_id r).

(** At most one registration per (student, activity) pair. *)
Definition one_registration_per_pair (st : Store) : Prop :=
  NoDup (pair_of <$> registrations st).

(** The registrations that link a given student to a given activity. *)
Definition registrations_linking (st : Store) (student_id activity_id : Z)
  : list Registration :=
  filter (λ r, Registration_student_id r = student_id
               ∧ Registration_activity_id r = activity_id)
    (registrations st).

(** Two emails to run requests with: a student of the seed, and one the
    seed does not have. *)
Definition michael : string := "michael@mergington.edu".
Definition newkid : string := "newkid@mergington.edu".

(** The seed after eight more students have signed up for Math Club, whose
    [max_participants] is 10 and which has two participants in the seed. *)
Definition math_club_full : Store :=
  foldl (λ db email, (get_db (signup_for_activity "Math Club" email) 1 db).2)
    (seed 0)
    [ "a@mergington.edu"; "b@mergington.edu"; "c@mergington.edu"; "d@mergington.edu";
      "e@mergington.edu"; "f@mergington.edu"; "g@mergington.edu"; "h@mergington.edu" ].

Definition math_club : Activity :=
  mkActivity 8 "Math Club"
    "Solve challenging problems and participate in math competitions"
    "Tuesdays, 3:30 PM - 4:30 PM" 10 0 0.

(** An activity, and a store, with [max_participants] replaced by what
    [f] gives. *)
Definition set_max_participants (f : Activity → Z) (a : Activity) : Activity :=
  mkActivity (Activity_id a) (Activity_name a) (Activity_description a)
    (Activity_schedule a) (f a) (Activity_created_at a) (Activity_updated_at a).

Definition with_capacity (f : Activity → Z) (st : Store) : Store :=
  mkStore (set_max_participants f <$> activities st) (students st) (registrations st).

(** Some student with this email is registered for some activity of this
    name. *)
Definition registered (st : Store) (activity_name email : string) : Prop :=
  ∃ s a r,
    s ∈ students st ∧ Student_email s = email ∧
    a ∈ activities st ∧ Activity_name a = activity_name ∧
    r ∈ registrations st ∧
    Registration_student_id r = Student_id s ∧
    Registration_activity_id r = Activity_id a.

#[global] Instance registered_dec st activity_name email :
  Decision (registered st activity_name email).
Proof.
  destruct (decide (Exists (λ s, Student_email s = email ∧
    Exists (λ a, Activity_name a = activity_name ∧
      Exists (λ r, Registration_student_id r = Student_id s
                   ∧ Registration_activity_id r = Activity_id a)
        (registrations st)) (activities st)) (students st))) as [e|HE];
    [left|right]; unfold registered.
  - apply Exists_exists in e as (s & Hs & <- & e).
    apply Exists_exists in e as (a & Ha & <- & e).
    apply Exists_exists in e as (r & Hr & ? & ?).
    by exists s, a, r.
  - intros (s & a & r & Hs & <- & Ha & <- & Hr & ? & ?). apply HE.
    apply Exists_exists. exists s. split; [done|]. split; [done|].
    apply Exists_exists. exists a. split; [done|]. split; [done|].
    apply Exists_exists. by exists r.
Defined.

(** What the schema and the handlers together maintain: primary keys and
    the two unique columns have no duplicates, every registration points
    at a student and an activity of the store, and no pair is registered
    twice. *)
Record consistent (st : Store) : Prop := mkConsistent {
  activity_ids_unique : NoDup (Activity_id <$> activities st);
  activity_names_unique : NoDup (Activity_name <$> activities st);
  student_ids_unique : NoDup (Student_id <$> students st);
  student_emails_unique : NoDup (Student_email <$> students st);
  registration_ids_unique : NoDup (Registration_id <$> registrations st);
  registration_student_fk :
    Forall (λ r, Registration_student_id r ∈ Student_id <$> students st) (registrations st);
  registration_activity_fk :
    Forall (λ r, Registration_activity_id r ∈ Activity_id <$> activities st) (registrations st);
  registration_pairs_unique : one_registration_per_pair st
}.

(** ** Vocabulary for the rest of the code *)

(** The registrations all have keys below the largest key of the engine:
    the next registration then gets the key after the largest in use, and
    is the last row of the table in key order. *)
Definition registration_keys_below_max (st : Store) : Prop :=
  Forall (λ r, Registration_id r < max_rowid) (registrations st).

(** A store that keeps every row of another, unchanged and in the same
    order one after the other: each table of the first is a sublist of
    the same table of the second. *)
Definition extends (st st' : Store) : Prop :=
  activities st `sublist_of` activities st'
  ∧ students st `sublist_of` students st'
  ∧ registrations st `sublist_of` registrations st'.

(** A session that has committed nothing and deleted nothing since it was
    opened on [st]. *)
Definition uncommitted (st : Store) (s : Session) : Prop :=
  persisted s = st ∧ deleted s = [] ∧ extends st (txn s).

(** When [m] starts in a session that satisfies [P], its result and the
    session it leaves satisfy [Q]. *)
Definition hoare {A} (P : Session → Prop) (m : M A) (Q : Result A → Session → Prop) : Prop :=
  ∀ s, P s → Q (m s).1 (m s).2.

(** What [init_db] owes the store it was started on. *)
Definition seeded_or_untouched (st : Store) (r : Result unit) (s : Session) : Prop :=
  extends st (persisted s) ∧ ∀ e, r = Raise e → persisted s = st.

(** The names of the seeded activities, in the order of the seed. *)
Definition initial_activity_names : list string :=
  (λ x, x.1.1.1) <$> initial_activities.

(** The listing the three tables of [init_db] describe: each activity of
    [initial_activities] with the emails [initial_registrations] gives it. *)
Definition initial_listing : gmap string ActivityInfo :=
  list_to_map
    (zip_with (λ '(name, description, schedule, max_participants) '(_, emails),
                 (name, mkActivityInfo description schedule max_participants emails))
       initial_activities initial_registrations).

(** The seed with one more registration, for Chess Club, whose student is
    not in the store; and a store without activities that already has a
    student of the seed. *)
Definition dangling_store : Store :=
  mkStore (activities (seed 0)) (students (seed 0))
    (registrations (seed 0) ++ [mkRegistration 19 99 1 0]).

Definition michael_only : Store :=
  mkStore [] [mkStudent 1 michael None None 0] [].

(** A store without activities whose one student is not of the seed. *)
Definition newkid_only : Store :=
  mkStore [] [mkStudent 7 newkid None None 0] [].

(** The seed after a new student has signed up for Chess Club. *)
Definition chess_club_joined : Store :=
  (get_db (signup_for_activity "Chess Club" newkid) 1 (seed 0)).2.

(** ** Lists: first match of a filter, keys without duplicates *)

Section first_match.
Context {A : Type} (P : A → Prop) {Pdec : ∀ x, Decision (P x)}.

Lemma first_filter_Some l x : first (filter P l) = Some x → x ∈ l ∧ P x.
Proof.
  intros H. apply head_Some_elem_of in H.
  apply list_elem_of_filter in H. tauto.
Qed.

Lemma first_filter_None l : first (filter P l) = None ↔ ∀ x, x ∈ l → ¬ P x.
Proof.
  unfold first. rewrite head_None. split.
  - intros H x Hx HP. by eapply filter_nil_not_elem_of.
  - intros H. induction l as [|y l IH]; [done|].
    rewrite filter_cons_False; [|apply H; left].
    apply IH. intros x Hx. apply H. by right.
Qed.

Lemma first_filter_is_Some l x : x ∈ l → P x → is_Some (first (filter P l)).
Proof.
  intros Hx HP. destruct (first (filter P l)) eqn:E; [eauto|].
  rewrite first_filter_None in E. by destruct (E x Hx).
Qed.

Lemma first_filter_app l k :
  first (filter P (l ++ k)) =
  match first (filter P l) with Some y => Some y | None => first (filter P k) end.
Proof. unfold first. by rewrite filter_app, head_app. Qed.
End first_match.

Lemma NoDup_fmap_eq {A B} (f : A → B) (l : list A) x y :
  NoDup (f <$> l) → x ∈ l → y ∈ l → f x = f y → x = y.
Proof.
  induction l as [|z l IH]; simpl; [by intros _ ?%elem_of_nil|].
  intros [Hz Hl]%NoDup_cons [->|Hx]%elem_of_cons [->|Hy]%elem_of_cons Hf; auto.
  - destruct Hz. rewrite Hf. apply list_elem_of_fmap. eauto.
  - destruct Hz. rewrite <- Hf. apply list_elem_of_fmap. eauto.
Qed.

Lemma foldr_max_ge (k : Z) (ks : list Z) x : x ∈ k :: ks → x ≤ foldr Z.max k ks.
Proof.
  induction ks as [|y ks IH]; cbn; intros Hx.
  - apply list_elem_of_singleton in Hx. lia.
  - apply elem_of_cons in Hx as [Hx|Hx].
    + assert (x ≤ foldr Z.max k ks) by (apply IH; rewrite Hx; left). lia.
    + apply elem_of_cons in Hx as [Hx|Hx]; [lia|].
      assert (x ≤ foldr Z.max k ks) by (apply IH; by right). lia.
Qed.

(** The first key is [1]; the next key follows the largest in use, also
    when that one is negative or is not the key of the last row added. *)
Example next_id_examples :
  next_id [] = 1 ∧ next_id [-5] = -4 ∧ next_id [3; 7; 5] = 8.
Proof. by repeat split. Qed.

Lemma next_id_fresh (ids : list Z) : next_id ids ∉ ids.
Proof.
  destruct ids as [|k ks]; [by intros ?%elem_of_nil|].
  intros H%foldr_max_ge. unfold next_id in H. lia.
Qed.

(** ** Running the handlers *)

Lemma student_by_email_None st email :
  student_by_email st email = None → email ∉ Student_email <$> students st.
Proof.
  unfold student_by_email. rewrite first_filter_None.
  intros H (s & -> & Hs)%list_elem_of_fmap. by apply (H s).
Qed.

Lemma get_or_create_student_fst now email st :
  (get_or_create_student now email st).1 =
  match student_by_email st email with
  | Some student => Student_id student
  | None => next_id (Student_id <$> students st)
  end.
Proof. unfold get_or_create_student. by destruct (student_by_email st email). Qed.

Lemma get_or_create_student_activities now email st :
  activities (get_or_create_student now email st).2 = activities st.
Proof. unfold get_or_create_student. by destruct (student_by_email st email). Qed.

Lemma get_or_create_student_registrations now email st :
  registrations (get_or_create_student now email st).2 = registrations st.
Proof. unfold get_or_create_student. by destruct (student_by_email st email). Qed.

(** Signup, run in a fresh session: the result and the session it leaves
    behind, transaction view included. *)
Lemma signup_run now st activity_name email :
  signup_for_activity activity_name email (SessionLocal now st) =
  let sid := (get_or_create_student now email st).1 in
  let st1 := (get_or_create_student now email st).2 in
  match activity_by_name st activity_name with
  | None =>
      (Raise (HTTPException 404 "Activity not found"), mkSession st st1 [] [] now)
  | Some activity =>
      match registration_for st1 sid (Activity_id activity) with
      | Some _ =>
          (Raise (HTTPException 400 "Student is already signed up"),
           mkSession st st1 [] [] now)
      | None =>
          let st2 := add_registration now sid (Activity_id activity) st1 in
          (Ok ("Signed up " +:+ email +:+ " for " +:+ activity_name),
           mkSession st2 st2 [] [] now)
      end
  end.
Proof.
  assert (Hreg : ∀ sid aid (l : list Registration),
    filter (λ r, Some (Registration_student_id r) = Some sid
                 ∧ Registration_activity_id r = aid) l =
    filter (λ r, Registration_student_id r = sid
                 ∧ Registration_activity_id r = aid) l).
  { intros. apply list_filter_iff. intros r. split; intros [? ?]; split; congruence. }
  unfold signup_for_activity, get_or_create_student, activity_by_name,
    registration_for, student_by_email.
  unfold bind at 1. unfold query at 1. cbn [SessionLocal txn].
  destruct (first (filter (λ s, Student_email s = email) (students st)))
    as [student|] eqn:Hs.
  - cbn. destruct (first (filter _ (activities st))) as [activity|]; [|done].
    cbn. rewrite Hreg.
    destruct (first (filter _ (registrations st))); [done|].
    cbn. done.
  - apply student_by_email_None in Hs.
    cbv [bind db_add db_flush db_commit query ret raise]. cbn.
    destruct (decide (email ∈ Student_email <$> students st)) as [Hin|_];
      [by destruct (Hs Hin)|].
    cbn. destruct (first (filter _ (activities st))) as [activity|]; [|done].
    cbn. rewrite Hreg.
    destruct (first (filter _ (registrations st))); [done|].
    cbn. done.
Qed.

(** Unregister, run in a fresh session. *)
Lemma unregister_run now st activity_name email :
  unregister_from_activity activity_name email (SessionLocal now st) =
  match student_by_email st email with
  | None => (Raise (HTTPException 400 "Student not found"), SessionLocal now st)
  | Some student =>
      match activity_by_name st activity_name with
      | None => (Raise (HTTPException 404 "Activity not found"), SessionLocal now st)
      | Some activity =>
          match registration_for st (Student_id student) (Activity_id activity) with
          | None =>
              (Raise (HTTPException 400 "Student is not signed up for this activity"),
               SessionLocal now st)
          | Some registration =>
              let st' := delete_registration registration st in
              (Ok ("Unregistered " +:+ email +:+ " from " +:+ activity_name),
               mkSession st' st' [] [] now)
          end
      end
  end.
Proof.
  unfold unregister_from_activity, student_by_email, activity_by_name, registration_for.
  unfold bind at 1. unfold query at 1. cbn [SessionLocal txn].
  destruct (first (filter _ (students st))) as [student|]; [|done].
  cbn. destruct (first (filter _ (activities st))) as [activity|]; [|done].
  cbn. destruct (first (filter _ (registrations st))) as [registration|]; [|done].
  cbn. done.
Qed.

(** Listing reads the transaction's view and leaves the session as it is. *)
Lemma comprehension_emails s regs :
  comprehension
    (λ reg, student <- Registration_student reg ;;
            match student with
            | Some student => ret (Student_email student)
            | None => raise AttributeError
            end) regs s =
  (emails_of (txn s) regs, s).
Proof.
  set (f := λ reg, _).
  assert (Hf : ∀ reg, f reg s =
    (match student_of (txn s) reg with
     | Some student => Ok (Student_email student)
     | None => Raise AttributeError
     end, s)).
  { intros reg. cbv [f bind Registration_student query ret raise student_of].
    by destruct (first _). }
  clearbody f.
  induction regs as [|reg regs IH]; [done|].
  cbn [comprehension emails_of]. unfold bind at 1. rewrite Hf.
  destruct (student_of (txn s) reg); [|done].
  unfold bind at 1. rewrite IH. by destruct (emails_of (txn s) regs).
Qed.

Lemma get_activities_loop s l result :
  for_each l
    (λ result activity,
       regs <- Activity_registrations activity ;;
       participants <-
         comprehension
           (λ reg, student <- Registration_student reg ;;
                   match student with
                   | Some student => ret (Student_email student)
                   | None => raise AttributeError
                   end) regs ;;
       ret (<[Activity_name activity :=
                mkActivityInfo (Activity_description activity)
                  (Activity_schedule activity)
                  (Activity_max_participants activity)
                  participants]> result)) result s =
  (listing_from (txn s) l result, s).
Proof.
  revert result. induction l as [|activity l IH]; intros result; [done|].
  cbn [for_each listing_from]. unfold bind at 1 2.
  unfold Activity_registrations at 1. unfold bind at 1. unfold query at 1, ret at 1.
  unfold bind at 1. rewrite comprehension_emails.
  fold (registrations_of (txn s) activity).
  destruct (emails_of (txn s) (registrations_of (txn s) activity)); [|done].
  cbn. apply IH.
Qed.

Lemma get_activities_run now st :
  get_db get_activities now st = (listing st, st).
Proof.
  unfold get_db, get_activities. unfold bind at 1. unfold query at 1.
  rewrite get_activities_loop. done.
Qed.

Lemma listed_participants_listing now st activity_name :
  listed_participants now st activity_name =
  match listing st with
  | Ok result => participants <$> result !! activity_name
  | Raise _ => None
  end.
Proof. unfold listed_participants. by rewrite get_activities_run. Qed.

(** The seed, and a day of Chess Club: a new student signs up, one of the
    two seeded participants leaves. *)
Example init_db_empty : (init_db 0 empty_store).1 = Ok ().
Proof. vm_compute. reflexivity. Qed.

Example chess_club_seeded :
  listed_participants 1 (seed 0) "Chess Club" = Some [michael; "daniel@mergington.edu"].
Proof. vm_compute. reflexivity. Qed.

Example chess_club_day :
  let db1 := (get_db (signup_for_activity "Chess Club" newkid) 1 (seed 0)).2 in
  let db2 := (get_db (unregister_from_activity "Chess Club" michael) 2 db1).2 in
  listed_participants 3 db1 "Chess Club"
  = Some [michael; "daniel@mergington.edu"; newkid]
  ∧ listed_participants 3 db2 "Chess Club" = Some ["daniel@mergington.edu"; newkid]
  ∧ listed_participants 3 db2 "Knitting Club" = None.
Proof. vm_compute. auto. Qed.

(** [init_db] on a store that has activities returns at once. *)
Lemma init_db_initialized now st : activities st ≠ [] → init_db now st = (Ok (), st).
Proof.
  intros H. unfold init_db, get_db, init_db_body.
  unfold bind at 1. unfold query at 1. cbn [SessionLocal txn].
  destruct (activities st); [done|]. cbn.
  destruct (decide _) as [|Hn]; [done|]. cbn in Hn. lia.
Qed.

(** The three ways a signup request ends. *)
Lemma signup_outcome now st activity_name email :
  let sid := (get_or_create_student now email st).1 in
  let st1 := (get_or_create_student now email st).2 in
  let out := get_db (signup_for_activity activity_name email) now st in
  (activity_by_name st activity_name = None
   ∧ out = (Raise (HTTPException 404 "Activity not found"), st))
  ∨ (∃ a r, activity_by_name st activity_name = Some a
      ∧ registration_for st1 sid (Activity_id a) = Some r
      ∧ out = (Raise (HTTPException 400 "Student is already signed up"), st))
  ∨ (∃ a, activity_by_name st activity_name = Some a
      ∧ registration_for st1 sid (Activity_id a) = None
      ∧ out = (Ok ("Signed up " +:+ email +:+ " for " +:+ activity_name),
               add_registration now sid (Activity_id a) st1)).
Proof.
  intros sid st1 out. unfold out, get_db. rewrite signup_run.
  cbv zeta. fold sid st1.
  destruct (activity_by_name st activity_name) as [a|]; [|by left].
  right. destruct (registration_for st1 sid (Activity_id a)) as [r|] eqn:Hr.
  - left. by exists a, r.
  - right. by exists a.
Qed.

(** The four ways an unregister request ends. *)
Lemma unregister_outcome now st activity_name email :
  let out := get_db (unregister_from_activity activity_name email) now st in
  (student_by_email st email = None
   ∧ out = (Raise (HTTPException 400 "Student not found"), st))
  ∨ (∃ s, student_by_email st email = Some s
      ∧ activity_by_name st activity_name = None
      ∧ out = (Raise (HTTPException 404 "Activity not found"), st))
  ∨ (∃ s a, student_by_email st email = Some s
      ∧ activity_by_name st activity_name = Some a
      ∧ registration_for st (Student_id s) (Activity_id a) = None
      ∧ out = (Raise (HTTPException 400 "Student is not signed up for this activity"), st))
  ∨ (∃ s a r, student_by_email st email = Some s
      ∧ activity_by_name st activity_name = Some a
      ∧ registration_for st (Student_id s) (Activity_id a) = Some r
      ∧ out = (Ok ("Unregistered " +:+ email +:+ " from " +:+ activity_name),
               delete_registration r st)).
Proof.
  intros out. unfold out, get_db. rewrite unregister_run.
  destruct (student_by_email st email) as [s|]; [|by left].
  right. destruct (activity_by_name st activity_name) as [a|]; [|left; by exists s].
  right. destruct (registration_for st (Student_id s) (Activity_id a)) as [r|] eqn:Hr.
  - right. by exists s, a, r.
  - left. by exists s, a.
Qed.

(** ** Lookups in a store *)

Lemma student_by_email_Some st email s :
  student_by_email st email = Some s → s ∈ students st ∧ Student_email s = email.
Proof. apply (first_filter_Some (λ s, Student_email s = email)). Qed.

Lemma activity_by_name_Some st activity_name a :
  activity_by_name st activity_name = Some a →
  a ∈ activities st ∧ Activity_name a = activity_name.
Proof. apply (first_filter_Some (λ a, Activity_name a = activity_name)). Qed.

Lemma activity_by_name_None st activity_name :
  activity_by_name st activity_name = None ↔
  ∀ a, a ∈ activities st → Activity_name a ≠ activity_name.
Proof. apply (first_filter_None (λ a, Activity_name a = activity_name)). Qed.

Lemma registration_for_Some st sid aid r :
  registration_for st sid aid = Some r →
  r ∈ registrations st ∧ Registration_student_id r = sid
  ∧ Registration_activity_id r = aid.
Proof. intros H%first_filter_Some. tauto. Qed.

Lemma registration_for_None st sid aid :
  registration_for st sid aid = None ↔ (sid, aid) ∉ pair_of <$> registrations st.
Proof.
  unfold registration_for. rewrite first_filter_None. split.
  - intros H (r & Hp & Hr)%list_elem_of_fmap. apply (H r Hr).
    unfold pair_of in Hp. by simplify_eq.
  - intros H r Hr [<- <-]. apply H. apply list_elem_of_fmap. by exists r.
Qed.

Lemma student_of_Some st reg s :
  student_of st reg = Some s →
  s ∈ students st ∧ Student_id s = Registration_student_id reg.
Proof. apply (first_filter_Some (λ s, Student_id s = Registration_student_id reg)). Qed.

Lemma student_by_email_unique st email s :
  NoDup (Student_email <$> students st) →
  s ∈ students st → Student_email s = email → student_by_email st email = Some s.
Proof.
  intros Hnd Hs He.
  destruct (first_filter_is_Some (λ s, Student_email s = email) _ s Hs He) as [s' Hs'].
  unfold student_by_email. rewrite Hs'. f_equal.
  apply first_filter_Some in Hs' as [Hin' He'].
  apply (NoDup_fmap_eq Student_email (students st)); congruence.
Qed.

Lemma activity_by_name_unique st activity_name a :
  NoDup (Activity_name <$> activities st) →
  a ∈ activities st → Activity_name a = activity_name →
  activity_by_name st activity_name = Some a.
Proof.
  intros Hnd Ha He.
  destruct (first_filter_is_Some (λ a, Activity_name a = activity_name) _ a Ha He)
    as [a' Ha'].
  unfold activity_by_name. rewrite Ha'. f_equal.
  apply first_filter_Some in Ha' as [Hin' He'].
  apply (NoDup_fmap_eq Activity_name (activities st)); congruence.
Qed.

Lemma student_of_unique st reg s :
  NoDup (Student_id <$> students st) →
  s ∈ students st → Student_id s = Registration_student_id reg →
  student_of st reg = Some s.
Proof.
  intros Hnd Hs He.
  destruct (first_filter_is_Some (λ s, Student_id s = Registration_student_id reg)
              _ s Hs He) as [s' Hs'].
  unfold student_of. rewrite Hs'. f_equal.
  apply first_filter_Some in Hs' as [Hin' He'].
  apply (NoDup_fmap_eq Student_id (students st)); congruence.
Qed.

Lemma get_or_create_student_in now email st :
  ∃ s, s ∈ students (get_or_create_student now email st).2
       ∧ Student_id s = (get_or_create_student now email st).1
       ∧ Student_email s = email.
Proof.
  unfold get_or_create_student.
  destruct (student_by_email st email) as [s|] eqn:Hs; cbn.
  - apply student_by_email_Some in Hs as [? ?]. by exists s.
  - eexists. split; [apply elem_of_app; right; apply list_elem_of_singleton; done|done].
Qed.

Lemma get_or_create_student_students now email st :
  students (get_or_create_student now email st).2 =
  match student_by_email st email with
  | Some _ => students st
  | None =>
      students st ++
        [mkStudent (next_id (Student_id <$> students st)) email None None now]
  end.
Proof. unfold get_or_create_student. by destruct (student_by_email st email). Qed.

(** ** Keys stay unique under append and delete *)

Lemma NoDup_fmap_snoc {A B} (f : A → B) (l : list A) x :
  NoDup (f <$> l) → f x ∉ f <$> l → NoDup (f <$> (l ++ [x])).
Proof.
  intros Hl Hx. rewrite fmap_app. apply NoDup_app. split; [done|]. split.
  - intros y Hy ->%list_elem_of_singleton. done.
  - apply NoDup_singleton.
Qed.

Lemma NoDup_fmap_filter {A B} (f : A → B) (P : A → Prop) `{!∀ x, Decision (P x)} l :
  NoDup (f <$> l) → NoDup (f <$> filter P l).
Proof.
  intros Hl. eapply sublist_NoDup; [exact Hl|].
  apply fmap_sublist. apply sublist_filter.
Qed.

Lemma pairs_add_registration now sid aid st :
  one_registration_per_pair st → registration_for st sid aid = None →
  one_registration_per_pair (add_registration now sid aid st).
Proof.
  unfold one_registration_per_pair. intros Hnd Hnone%registration_for_None.
  cbn. by apply NoDup_fmap_snoc.
Qed.

Lemma pairs_delete_registration r st :
  one_registration_per_pair st → one_registration_per_pair (delete_registration r st).
Proof. unfold one_registration_per_pair. cbn. apply NoDup_fmap_filter. Qed.

Lemma pairs_get_or_create_student now email st :
  one_registration_per_pair st →
  one_registration_per_pair (get_or_create_student now email st).2.
Proof.
  unfold one_registration_per_pair. by rewrite get_or_create_student_registrations.
Qed.

(** ** Consistency is kept *)

Lemma consistent_get_or_create_student now email st :
  consistent st → consistent (get_or_create_student now email st).2.
Proof.
  intros [Hai Han Hsi Hse Hri Hfs Hfa Hp]. unfold get_or_create_student.
  destruct (student_by_email st email) as [s|] eqn:Hs; [done|].
  apply student_by_email_None in Hs.
  constructor; cbn; try done.
  - apply NoDup_fmap_snoc; [done|]. apply next_id_fresh.
  - by apply NoDup_fmap_snoc.
  - eapply Forall_impl; [exact Hfs|]. intros r Hr. cbn in Hr.
    rewrite fmap_app. apply elem_of_app. by left.
Qed.

Lemma consistent_add_registration now sid aid st :
  consistent st →
  sid ∈ Student_id <$> students st → aid ∈ Activity_id <$> activities st →
  registration_for st sid aid = None →
  consistent (add_registration now sid aid st).
Proof.
  intros [Hai Han Hsi Hse Hri Hfs Hfa Hp] Hsid Haid Hnone.
  constructor; cbn; try done.
  - apply NoDup_fmap_snoc; [done|]. apply next_id_fresh.
  - apply Forall_app. split; [done|]. by apply Forall_singleton.
  - apply Forall_app. split; [done|]. by apply Forall_singleton.
  - by apply pairs_add_registration.
Qed.

Lemma consistent_delete_registration r st :
  consistent st → consistent (delete_registration r st).
Proof.
  intros [Hai Han Hsi Hse Hri Hfs Hfa Hp].
  constructor; cbn; try done.
  - by apply NoDup_fmap_filter.
  - apply Forall_forall. intros x [_ Hx]%list_elem_of_filter.
    by apply (proj1 (Forall_forall _ _) Hfs).
  - apply Forall_forall. intros x [_ Hx]%list_elem_of_filter.
    by apply (proj1 (Forall_forall _ _) Hfa).
  - by apply pairs_delete_registration.
Qed.

Lemma consistent_signup now st activity_name email :
  consistent st →
  consistent (get_db (signup_for_activity activity_name email) now st).2.
Proof.
  intros Hc.
  destruct (signup_outcome now st activity_name email)
    as [[_ ->]|[(a & r & _ & _ & ->)|(a & Ha & Hnone & ->)]]; try done.
  cbn. apply activity_by_name_Some in Ha as [Ha _].
  destruct (get_or_create_student_in now email st) as (s & Hs & Hid & _).
  apply consistent_add_registration; [|..|done].
  - by apply consistent_get_or_create_student.
  - rewrite <- Hid. apply list_elem_of_fmap. by exists s.
  - rewrite get_or_create_student_activities. apply list_elem_of_fmap. by exists a.
Qed.

Lemma consistent_unregister now st activity_name email :
  consistent st →
  consistent (get_db (unregister_from_activity activity_name email) now st).2.
Proof.
  intros Hc.
  destruct (unregister_outcome now st activity_name email)
    as [[_ ->]|[(s & _ & _ & ->)|[(s & a & _ & _ & _ & ->)
       |(s & a & r & _ & _ & _ & ->)]]]; try done.
  by apply consistent_delete_registration.
Qed.

Lemma serve_store req now st :
  (serve req now st).2 =
  match req with
  | GetActivities => st
  | Signup activity_name email =>
      (get_db (signup_for_activity activity_name email) now st).2
  | Unregister activity_name email =>
      (get_db (unregister_from_activity activity_name email) now st).2
  end.
Proof. destruct req; cbn; [by rewrite get_activities_run|done..]. Qed.

Lemma consistent_serve req now st : consistent st → consistent (serve req now st).2.
Proof.
  intros Hc. rewrite serve_store.
  destruct req; [done|by apply consistent_signup|by apply consistent_unregister].
Qed.

Lemma activities_serve req now st : activities (serve req now st).2 = activities st.
Proof.
  rewrite serve_store. destruct req as [|n e|n e]; [done|..].
  - destruct (signup_outcome now st n e)
      as [[_ ->]|[(a & r & _ & _ & ->)|(a & _ & _ & ->)]]; try done.
    cbn. apply get_or_create_student_activities.
  - destruct (unregister_outcome now st n e)
      as [[_ ->]|[(s & _ & _ & ->)|[(s & a & _ & _ & _ & ->)
         |(s & a & r & _ & _ & _ & ->)]]]; done.
Qed.

Lemma consistent_seed now : consistent (seed now).
Proof.
  constructor; unfold one_registration_per_pair; compute_done.
Qed.

Lemma activities_seed now : activities (seed now) ≠ [].
Proof. vm_compute. discriminate. Qed.

Lemma reachable_consistent st : reachable st → consistent st ∧ activities st ≠ [].
Proof.
  induction 1 as [now|req now db _ [IHc IHa]|now db _ [IHc IHa]].
  - split; [apply consistent_seed|apply activities_seed].
  - split; [by apply consistent_serve|by rewrite activities_serve].
  - by rewrite init_db_initialized.
Qed.

(** ** The listing of a consistent store *)

Lemma emails_of_Ok st regs :
  Forall (λ r, Registration_student_id r ∈ Student_id <$> students st) regs →
  emails_of st regs = Ok (email_of st <$> regs).
Proof.
  induction 1 as [|r regs Hr _ IH]; [done|].
  cbn [emails_of]. rewrite IH.
  apply list_elem_of_fmap in Hr as (s & Hid & Hs).
  destruct (first_filter_is_Some (λ s, Student_id s = Registration_student_id r)
              _ s Hs (eq_sym Hid)) as [s' Hs'].
  fold (student_of st r) in Hs'. rewrite fmap_cons, Hs'.
  unfold email_of at 2. by rewrite Hs'.
Qed.

Lemma registrations_of_fk st a :
  Forall (λ r, Registration_student_id r ∈ Student_id <$> students st) (registrations st) →
  Forall (λ r, Registration_student_id r ∈ Student_id <$> students st)
    (registrations_of st a).
Proof.
  rewrite !Forall_forall. intros H r [_ Hr]%list_elem_of_filter. by apply H.
Qed.

Lemma listing_from_other st l result m activity_name :
  (∀ b, b ∈ l → Activity_name b ≠ activity_name) →
  listing_from st l result = Ok m → m !! activity_name = result !! activity_name.
Proof.
  revert result. induction l as [|b l IH]; intros result Hne Hm; cbn in Hm.
  - by simplify_eq.
  - destruct (emails_of st (registrations_of st b)) as [ps|]; [|done].
    rewrite (IH _ (λ c Hc, Hne c (list_elem_of_further _ _ _ Hc)) Hm).
    apply lookup_insert_ne. apply Hne. left.
Qed.

Lemma listing_from_lookup st l result m a :
  NoDup (Activity_name <$> l) → a ∈ l → listing_from st l result = Ok m →
  ∃ ps, emails_of st (registrations_of st a) = Ok ps
        ∧ m !! Activity_name a = Some (info_of a ps).
Proof.
  revert result. induction l as [|b l IH]; intros result Hnd Ha Hm.
  { by apply elem_of_nil in Ha. }
  cbn in Hnd. apply NoDup_cons in Hnd as [Hb Hnd]. cbn in Hm.
  destruct (emails_of st (registrations_of st b)) as [ps|] eqn:Hps; [|done].
  apply elem_of_cons in Ha as [->|Ha]; [|by eapply IH].
  exists ps. split; [done|].
  erewrite listing_from_other; [| |exact Hm].
  - apply lookup_insert_eq.
  - intros c Hc Heq. apply Hb. rewrite <- Heq. apply list_elem_of_fmap. by exists c.
Qed.

Lemma listing_from_Ok st l result :
  Forall (λ r, Registration_student_id r ∈ Student_id <$> students st) (registrations st) →
  ∃ m, listing_from st l result = Ok m.
Proof.
  intros Hfk. revert result. induction l as [|b l IH]; intros result; cbn; [eauto|].
  rewrite emails_of_Ok; [apply IH|by apply registrations_of_fk].
Qed.

Lemma listed_participants_consistent now st a :
  consistent st → a ∈ activities st →
  listed_participants now st (Activity_name a) =
  Some (email_of st <$> registrations_of st a).
Proof.
  intros Hc Ha. rewrite listed_participants_listing. unfold listing.
  destruct (listing_from_Ok st (activities st) ∅ (registration_student_fk _ Hc))
    as [m Hm].
  rewrite Hm.
  destruct (listing_from_lookup _ _ _ _ a (activity_names_unique _ Hc) Ha Hm)
    as (ps & Hps & ->).
  rewrite emails_of_Ok in Hps by (apply registrations_of_fk, Hc).
  cbn. congruence.
Qed.

Lemma email_of_student st r s :
  NoDup (Student_id <$> students st) →
  s ∈ students st → Student_id s = Registration_student_id r →
  email_of st r = Student_email s.
Proof. intros Hnd Hs Hid. unfold email_of. by rewrite (student_of_unique st r s). Qed.

Lemma fk_student st r :
  consistent st → r ∈ registrations st →
  ∃ s, s ∈ students st ∧ Student_id s = Registration_student_id r.
Proof.
  intros Hc Hr.
  pose proof (proj1 (Forall_forall _ _) (registration_student_fk _ Hc) r Hr) as H.
  apply list_elem_of_fmap in H as (s & ? & ?). eauto.
Qed.

(** No email is listed twice for an activity. *)
Lemma participants_NoDup st a :
  consistent st → NoDup (email_of st <$> registrations_of st a).
Proof.
  intros Hc. apply NoDup_fmap_2_strong.
  - intros r1 r2 [Ha1 Hr1]%list_elem_of_filter [Ha2 Hr2]%list_elem_of_filter He.
    destruct (fk_student st r1 Hc Hr1) as (s1 & Hs1 & Hid1).
    destruct (fk_student st r2 Hc Hr2) as (s2 & Hs2 & Hid2).
    rewrite (email_of_student st r1 s1), (email_of_student st r2 s2) in He
      by (done || apply Hc).
    assert (s1 = s2)
      by (apply (NoDup_fmap_eq Student_email (students st)); done || apply Hc).
    subst s2.
    apply (NoDup_fmap_eq pair_of (registrations st)); [apply Hc|done..|].
    unfold pair_of. congruence.
  - apply NoDup_filter. eapply NoDup_fmap_1. apply (registration_ids_unique _ Hc).
Qed.

(** An email is listed for an activity exactly when a student with that
    email has a registration for it. *)
Lemma participants_elem_of st a email :
  consistent st →
  email ∈ email_of st <$> registrations_of st a ↔
  ∃ s r, s ∈ students st ∧ Student_email s = email ∧ r ∈ registrations st
         ∧ Registration_student_id r = Student_id s
         ∧ Registration_activity_id r = Activity_id a.
Proof.
  intros Hc. rewrite list_elem_of_fmap. split.
  - intros (r & -> & [Ha Hr]%list_elem_of_filter).
    destruct (fk_student st r Hc Hr) as (s & Hs & Hid).
    exists s, r. rewrite (email_of_student st r s) by (done || apply Hc). done.
  - intros (s & r & Hs & He & Hr & Hid & Ha). exists r. split.
    + rewrite (email_of_student st r s) by (done || apply Hc). done.
    + apply list_elem_of_filter. done.
Qed.

Lemma occurrences_NoDup email ps : NoDup ps → email ∈ ps → occurrences email ps = 1%nat.
Proof.
  unfold occurrences. induction 1 as [|e ps He Hnd IH]; [by intros ?%elem_of_nil|].
  intros [->|Hin]%elem_of_cons.
  - rewrite filter_cons_True by done. cbn. f_equal.
    apply length_zero_iff_nil. destruct (filter _ ps) as [|x l] eqn:Hf; [done|].
    assert (Hx : x ∈ filter (λ e0, e0 = e) ps) by (rewrite Hf; left).
    apply list_elem_of_filter in Hx as [-> Hx]. done.
  - rewrite filter_cons_False; [by apply IH|]. intros ->. done.
Qed.

(** ** The at-most-one-registration invariant *)

Lemma registrations_linking_NoDup st sid aid :
  one_registration_per_pair st → (length (registrations_linking st sid aid) ≤ 1)%nat.
Proof.
  unfold one_registration_per_pair, registrations_linking.
  induction (registrations st) as [|r l IH]; cbn; [lia|].
  intros [Hr Hl]%NoDup_cons. case_decide as Hp; [|auto].
  cbn. destruct (filter _ l) as [|x k] eqn:Hf; [cbn; lia|].
  assert (Hx : x ∈ filter (λ r, Registration_student_id r = sid
                                ∧ Registration_activity_id r = aid) l)
    by (rewrite Hf; left).
  apply list_elem_of_filter in Hx as [[Hxs Hxa] Hx].
  destruct Hr. apply list_elem_of_fmap. exists x. split; [|done].
  unfold pair_of. destruct Hp. congruence.
Qed.

Lemma pairs_serve req now st :
  one_registration_per_pair st → one_registration_per_pair (serve req now st).2.
Proof.
  intros Hp. rewrite serve_store. destruct req as [|n e|n e]; [done|..].
  - destruct (signup_outcome now st n e)
      as [[_ ->]|[(a & r & _ & _ & ->)|(a & _ & Hnone & ->)]]; try done.
    cbn [snd]. apply pairs_add_registration; [|done].
    by apply pairs_get_or_create_student.
  - destruct (unregister_outcome now st n e)
      as [[_ ->]|[(s & _ & _ & ->)|[(s & a & _ & _ & _ & ->)
         |(s & a & r & _ & _ & _ & ->)]]]; try done.
    by apply pairs_delete_registration.
Qed.

(** The schema itself accepts a second registration of a pair: adding and
    committing one through a session succeeds. *)
Lemma unchecked_insert_duplicates now st sid aid :
  (sid, aid) ∈ pair_of <$> registrations st →
  ∃ st', get_db (db_add (NewRegistration (Some sid) (Some aid)) ;;; db_commit) now st
         = (Ok (), st')
         ∧ (1 < length (registrations_linking st' sid aid))%nat.
Proof.
  intros (r & Hp & Hr)%list_elem_of_fmap. eexists. split; [reflexivity|].
  unfold registrations_linking. cbn.
  rewrite filter_app, length_app, filter_cons_True by done. cbn.
  destruct (filter _ (registrations st)) as [|x l] eqn:Hf; [|cbn; lia].
  destruct (filter_nil_not_elem_of _ _ r Hf); [|done].
  unfold pair_of in Hp. split; congruence.
Qed.

(** C1. In every store the service can reach, a student is linked to an
    activity by at most one registration, and the store after any further
    request (list, signup, unregister) is such a store again. The schema
    does not enforce this: a registration for a pair that is already
    there is accepted by an insert and commit; it is the lookup in signup
    that keeps it out. *)
Theorem registration_pairs_invariant st :
  reachable st →
  (∀ sid aid, (length (registrations_linking st sid aid) ≤ 1)%nat)
  ∧ (∀ req now sid aid,
       (length (registrations_linking (serve req now st).2 sid aid) ≤ 1)%nat)
  ∧ (∀ now sid aid, (sid, aid) ∈ pair_of <$> registrations st →
       ∃ st', get_db (db_add (NewRegistration (Some sid) (Some aid)) ;;; db_commit)
                now st = (Ok (), st')
              ∧ (1 < length (registrations_linking st' sid aid))%nat).
Proof.
  intros Hr. apply reachable_consistent in Hr as [Hc _].
  pose proof (registration_pairs_unique _ Hc) as Hp.
  split; [|split].
  - intros. by apply registrations_linking_NoDup.
  - intros. by apply registrations_linking_NoDup, pairs_serve.
  - intros. by apply unchecked_insert_duplicates.
Qed.

Lemma registration_pairs_invariant_witness :
  reachable (seed 0)
  ∧ (∀ sid aid, (length (registrations_linking (seed 0) sid aid) ≤ 1)%nat)
  ∧ (∀ req now sid aid,
       (length (registrations_linking (serve req now (seed 0)).2 sid aid) ≤ 1)%nat).
Proof.
  assert (Hr : reachable (seed 0)) by apply reach_seed.
  destruct (registration_pairs_invariant (seed 0) Hr) as (H1 & H2 & _).
  exact (conj Hr (conj H1 H2)).
Defined.

(** ** Signup: errors *)

(** C3. Signup with a name that no activity has fails with 404 "Activity
    not found", whatever the store and whether or not the email belongs
    to a student; the store is left as it was. *)
Theorem signup_unknown_activity_not_found st now activity_name email :
  (∀ a, a ∈ activities st → Activity_name a ≠ activity_name) →
  get_db (signup_for_activity activity_name email) now st =
  (Raise (HTTPException 404 "Activity not found"), st).
Proof.
  intros Hno%activity_by_name_None.
  destruct (signup_outcome now st activity_name email)
    as [[_ ?]|[(a & r & Ha & _)|(a & Ha & _)]]; [done|congruence..].
Qed.

Lemma signup_unknown_activity_not_found_witness :
  (∀ a, a ∈ activities (seed 0) → Activity_name a ≠ "Knitting Club")
  ∧ get_db (signup_for_activity "Knitting Club" newkid) 1 (seed 0) =
    (Raise (HTTPException 404 "Activity not found"), seed 0)
  ∧ get_db (signup_for_activity "Knitting Club" michael) 1 (seed 0) =
    (Raise (HTTPException 404 "Activity not found"), seed 0).
Proof.
  assert (H : ∀ a, a ∈ activities (seed 0) → Activity_name a ≠ "Knitting Club").
  { apply Forall_forall. vm_compute. repeat constructor; discriminate. }
  split; [exact H|].
  split; apply signup_unknown_activity_not_found; exact H.
Defined.

(** The student that the first step of signup adds for an email no
    student has: one row, with that email, no name and no grade level,
    under a key that was not in use. *)
Lemma get_or_create_student_new now email st :
  email ∉ Student_email <$> students st →
  ∃ k, (k ∉ Student_id <$> students st)
       ∧ students (get_or_create_student now email st).2
         = students st ++ [mkStudent k email None None now].
Proof.
  intros Hun. exists (next_id (Student_id <$> students st)).
  split; [apply next_id_fresh|].
  unfold get_or_create_student.
  destruct (student_by_email st email) as [s|] eqn:Hs; [|done].
  apply (first_filter_Some (λ s, Student_email s = email)) in Hs as [Hs <-].
  destruct Hun. apply list_elem_of_fmap. by exists s.
Qed.

(** C10. A signup that fails leaves the persisted store exactly as it was.
    The only failures are 404 for an unknown activity and 400 for a pair
    that is already registered. When the email was unseen, the session
    had inserted the student in its transaction by the time of the
    failing check (the students it saw were those of the store and one
    more, with that email, under a key not in use), and closing the
    session dropped it. *)
Theorem failed_signup_persists_nothing st now activity_name email e :
  (get_db (signup_for_activity activity_name email) now st).1 = Raise e →
  (get_db (signup_for_activity activity_name email) now st).2 = st
  ∧ (e = HTTPException 404 "Activity not found"
     ∨ e = HTTPException 400 "Student is already signed up")
  ∧ (email ∉ Student_email <$> students st →
     ∃ k, (k ∉ Student_id <$> students st)
          ∧ students
              (txn (signup_for_activity activity_name email (SessionLocal now st)).2)
            ≡ₚ students st ++ [mkStudent k email None None now]).
Proof.
  intros He.
  assert (Htxn : email ∉ Student_email <$> students st →
    ∃ k, (k ∉ Student_id <$> students st)
         ∧ students (get_or_create_student now email st).2
           ≡ₚ students st ++ [mkStudent k email None None now]).
  { intros Hun. destruct (get_or_create_student_new now email st Hun) as (k & Hk & ->).
    by exists k. }
  revert He. unfold get_db. rewrite signup_run. cbv zeta.
  destruct (activity_by_name st activity_name) as [a|]; cbn.
  - destruct (registration_for _ _ _); cbn; [|done].
    intros [= <-]. auto.
  - intros [= <-]. auto.
Qed.

Lemma failed_signup_persists_nothing_witness :
  (get_db (signup_for_activity "Knitting Club" newkid) 1 (seed 0)).1
    = Raise (HTTPException 404 "Activity not found")
  ∧ (newkid ∉ Student_email <$> students (seed 0))
  ∧ (get_db (signup_for_activity "Knitting Club" newkid) 1 (seed 0)).2 = seed 0
  ∧ ∃ k, (k ∉ Student_id <$> students (seed 0))
         ∧ students
             (txn (signup_for_activity "Knitting Club" newkid (SessionLocal 1 (seed 0))).2)
           ≡ₚ students (seed 0) ++ [mkStudent k newkid None None 1].
Proof.
  assert (H : (get_db (signup_for_activity "Knitting Club" newkid) 1 (seed 0)).1
              = Raise (HTTPException 404 "Activity not found")) by (vm_compute; reflexivity).
  assert (Hun : newkid ∉ Student_email <$> students (seed 0)) by compute_done.
  destruct (failed_signup_persists_nothing _ _ _ _ _ H) as (H1 & _ & H3).
  exact (conj H (conj Hun (conj H1 (H3 Hun)))).
Defined.

(** ** Signup: students *)

Lemma signup_students now st activity_name email :
  let st' := (get_db (signup_for_activity activity_name email) now st).2 in
  students st' = students st
  ∨ (∃ msg, (get_db (signup_for_activity activity_name email) now st).1 = Ok msg)
    ∧ students st' = students (get_or_create_student now email st).2.
Proof.
  cbv zeta.
  destruct (signup_outcome now st activity_name email)
    as [[_ ->]|[(a & r & _ & _ & ->)|(a & _ & _ & ->)]]; [by left..|].
  right. split; [by eexists|done].
Qed.

Lemma seen_student_by_email st email :
  email ∈ Student_email <$> students st → is_Some (student_by_email st email).
Proof.
  intros (s & -> & Hs)%list_elem_of_fmap.
  by apply (first_filter_is_Some (λ s', Student_email s' = Student_email s) _ s).
Qed.

(** C8. A signup that succeeds for an email no student has adds one
    student to the table: a row with that email, no name and no grade
    level, under a key that was not in use; the students of the store are
    all still there, and a later lookup by that email finds the new one.
    A signup for an email some student has leaves the table of students
    as it was. *)
Theorem signup_creates_student_lazily st now activity_name email :
  let out := get_db (signup_for_activity activity_name email) now st in
  (∀ msg, out.1 = Ok msg → email ∉ Student_email <$> students st →
     ∃ k, (k ∉ Student_id <$> students st)
          ∧ students out.2 ≡ₚ students st ++ [mkStudent k email None None now]
          ∧ student_by_email out.2 email = Some (mkStudent k email None None now))
  ∧ (email ∈ Student_email <$> students st → students out.2 = students st).
Proof.
  cbv zeta. split.
  - intros msg Hok Hun.
    destruct (get_or_create_student_new now email st Hun) as (k & Hk & Hnew).
    assert (Hnone : student_by_email st email = None).
    { destruct (student_by_email st email) as [s|] eqn:Hs; [|done].
      apply student_by_email_Some in Hs as [Hs <-].
      destruct Hun. apply list_elem_of_fmap. by exists s. }
    assert (Hst : students (get_db (signup_for_activity activity_name email) now st).2
                  = students st ++ [mkStudent k email None None now]).
    { destruct (signup_students now st activity_name email) as [Heq|[_ ->]]; [|done].
      destruct (signup_outcome now st activity_name email)
        as [[_ H]|[(a & r & _ & _ & H)|(a & _ & _ & H)]];
        rewrite H in Hok; try discriminate Hok.
      by rewrite H. }
    exists k. split; [done|]. split; [by rewrite Hst|].
    unfold student_by_email. rewrite Hst, first_filter_app.
    fold (student_by_email st email). rewrite Hnone.
    by rewrite filter_cons_True.
  - intros [s Hs]%seen_student_by_email.
    destruct (signup_students now st activity_name email) as [Heq|[_ ->]]; [done|].
    rewrite get_or_create_student_students. by rewrite Hs.
Qed.

Lemma signup_creates_student_lazily_witness :
  let out := get_db (signup_for_activity "Chess Club" newkid) 1 (seed 0) in
  out.1 = Ok "Signed up newkid@mergington.edu for Chess Club"
  ∧ (newkid ∉ Student_email <$> students (seed 0))
  ∧ ∃ k, (k ∉ Student_id <$> students (seed 0))
         ∧ students out.2 ≡ₚ students (seed 0) ++ [mkStudent k newkid None None 1]
         ∧ student_by_email out.2 newkid = Some (mkStudent k newkid None None 1).
Proof.
  cbv zeta.
  assert (H : (get_db (signup_for_activity "Chess Club" newkid) 1 (seed 0)).1
              = Ok "Signed up newkid@mergington.edu for Chess Club")
    by (vm_compute; reflexivity).
  assert (Hun : newkid ∉ Student_email <$> students (seed 0)) by compute_done.
  split; [exact H|]. split; [exact Hun|].
  exact (proj1 (signup_creates_student_lazily (seed 0) 1 "Chess Club" newkid) _ H Hun).
Defined.

(** ** Frame *)

(** C9. Neither signup nor unregister touches the activities; unregister
    leaves the students as they were; signup leaves them as they were or,
    for an email no student had, adds one student, under a key not in
    use, to those that were there. No row of either table is changed or
    removed. *)
Theorem signup_unregister_frame st now activity_name email :
  let up := (get_db (signup_for_activity activity_name email) now st).2 in
  let un := (get_db (unregister_from_activity activity_name email) now st).2 in
  activities up = activities st
  ∧ activities un = activities st
  ∧ students un = students st
  ∧ (students up = students st
     ∨ (email ∉ Student_email <$> students st)
       ∧ ∃ k, (k ∉ Student_id <$> students st)
              ∧ students up ≡ₚ students st ++ [mkStudent k email None None now]).
Proof.
  cbv zeta. split; [|split; [|split]].
  - apply (activities_serve (Signup activity_name email)).
  - apply (activities_serve (Unregister activity_name email)).
  - destruct (unregister_outcome now st activity_name email)
      as [[_ ->]|[(s & _ & _ & ->)|[(s & a & _ & _ & _ & ->)
         |(s & a & r & _ & _ & _ & ->)]]]; done.
  - destruct (signup_students now st activity_name email) as [Heq|[_ ->]]; [by left|].
    destruct (student_by_email st email) as [s|] eqn:Hs.
    + left. rewrite get_or_create_student_students. by rewrite Hs.
    + right. apply student_by_email_None in Hs as Hun. split; [done|].
      destruct (get_or_create_student_new now email st Hun) as (k & Hk & ->).
      by exists k.
Qed.

(** ** Signup: success and conflict *)

Lemma pair_from_projections {A B} (p : A * B) a b : p.1 = a → p.2 = b → p = (a, b).
Proof. destruct p. cbn. congruence. Qed.

Lemma store_eta st : mkStore (activities st) (students st) (registrations st) = st.
Proof. by destruct st. Qed.

(** In a consistent store, the lookup of signup finds a registration
    exactly when the pair is registered. *)
Lemma registration_for_registered now st a email :
  consistent st → a ∈ activities st →
  is_Some (registration_for (get_or_create_student now email st).2
             (get_or_create_student now email st).1 (Activity_id a))
  ↔ registered st (Activity_name a) email.
Proof.
  intros Hc Ha. unfold get_or_create_student.
  destruct (student_by_email st email) as [s0|] eqn:Hs0; cbn [fst snd]; split.
  - intros [r (Hr & Hsid & Haid)%registration_for_Some].
    apply student_by_email_Some in Hs0 as [Hs0 He]. by exists s0, a, r.
  - intros (s & a' & r & Hs & He & Ha' & Hn & Hr & Hsid & Haid).
    rewrite (student_by_email_unique st email s) in Hs0 by (done || apply Hc).
    simplify_eq.
    assert (a' = a)
      by (apply (NoDup_fmap_eq Activity_name (activities st)); done || apply Hc).
    subst a'.
    by apply (first_filter_is_Some
                (λ x, Registration_student_id x = Student_id s0
                      ∧ Registration_activity_id x = Activity_id a) _ r).
  - intros [r (Hr & Hsid & Haid)%registration_for_Some]. cbn in Hr.
    destruct (fk_student st r Hc Hr) as (s & Hs & Hid).
    destruct (next_id_fresh (Student_id <$> students st)).
    rewrite <- Hsid, <- Hid. apply list_elem_of_fmap. by exists s.
  - intros (s & a' & r & Hs & He & _).
    apply student_by_email_None in Hs0. destruct Hs0.
    apply list_elem_of_fmap. by exists s.
Qed.

Lemma first_filter_fmap {A B} (g : A → B) (P : B → Prop) `{!∀ y, Decision (P y)}
    (l : list A) :
  first (filter P (g <$> l)) = g <$> first (filter (λ x, P (g x)) l).
Proof.
  induction l as [|x l IH]; [done|].
  rewrite fmap_cons, !filter_cons. by case_decide.
Qed.

(** Signup on a store and on the same store with other capacities: the
    same response, and the same store up to those capacities. *)
Lemma signup_with_capacity f now st activity_name email :
  get_db (signup_for_activity activity_name email) now (with_capacity f st)
  = ((get_db (signup_for_activity activity_name email) now st).1,
     with_capacity f (get_db (signup_for_activity activity_name email) now st).2).
Proof.
  assert (Hg : get_or_create_student now email (with_capacity f st)
               = ((get_or_create_student now email st).1,
                  with_capacity f (get_or_create_student now email st).2)).
  { unfold get_or_create_student.
    change (student_by_email (with_capacity f st) email) with (student_by_email st email).
    by destruct (student_by_email st email). }
  assert (Ha : activity_by_name (with_capacity f st) activity_name
               = set_max_participants f <$> activity_by_name st activity_name).
  { unfold activity_by_name. cbn [with_capacity activities].
    rewrite (first_filter_fmap (set_max_participants f)
               (λ a, Activity_name a = activity_name)).
    done. }
  unfold get_db. rewrite !signup_run. cbv zeta. rewrite Hg, Ha. cbn [fst snd].
  destruct (activity_by_name st activity_name) as [a|]; [|done].
  cbn [fmap option_fmap option_map set_max_participants Activity_id].
  change (registration_for (with_capacity f ?x)) with (registration_for x).
  by destruct (registration_for _ _ _).
Qed.

(** What a successful signup has done. *)
Lemma signup_Ok now st activity_name email msg :
  (get_db (signup_for_activity activity_name email) now st).1 = Ok msg →
  ∃ a, activity_by_name st activity_name = Some a
       ∧ registration_for (get_or_create_student now email st).2
           (get_or_create_student now email st).1 (Activity_id a) = None
       ∧ (get_db (signup_for_activity activity_name email) now st).2
         = add_registration now (get_or_create_student now email st).1 (Activity_id a)
             (get_or_create_student now email st).2.
Proof.
  intros Hok.
  destruct (signup_outcome now st activity_name email)
    as [[_ H]|[(a & r & _ & _ & H)|(a & Ha & Hnone & H)]];
    rewrite H in Hok; try discriminate Hok.
  exists a. by rewrite H.
Qed.

Lemma signup_Ok_registered now st activity_name email msg :
  (get_db (signup_for_activity activity_name email) now st).1 = Ok msg →
  registered (get_db (signup_for_activity activity_name email) now st).2
    activity_name email.
Proof.
  intros (a & Ha & _ & ->)%signup_Ok.
  apply activity_by_name_Some in Ha as [Ha Hn].
  destruct (get_or_create_student_in now email st) as (s & Hs & Hid & He).
  exists s, a, (new_registration now (get_or_create_student now email st).1
                  (Activity_id a) (get_or_create_student now email st).2).
  cbn. rewrite get_or_create_student_activities.
  repeat split; try done.
  apply elem_of_app. right. by apply list_elem_of_singleton.
Qed.

Lemma registered_with_capacity f st activity_name email :
  registered st activity_name email →
  registered (with_capacity f st) activity_name email.
Proof.
  intros (s & a & r & Hs & He & Ha & Hn & Hr & Hsid & Haid).
  exists s, (set_max_participants f a), r. repeat split; try done.
  cbn. apply list_elem_of_fmap. by exists a.
Qed.

(** C7. In a consistent store, signup for an activity of the store by an
    email not registered for it succeeds and creates the registration:
    the pair is registered afterwards, and the table of registrations is
    the one before and one row more, for that activity. Nothing is
    assumed of the activity's [max_participants] or of the number of its
    participants: the statement covers the activity that is full or over
    capacity, and whatever the capacities in the store are replaced by,
    the response is the same and the registration is created. *)
Theorem signup_ignores_capacity st now a email :
  consistent st → a ∈ activities st → ¬ registered st (Activity_name a) email →
  let out := get_db (signup_for_activity (Activity_name a) email) now st in
  out.1 = Ok ("Signed up " +:+ email +:+ " for " +:+ Activity_name a)
  ∧ registered out.2 (Activity_name a) email
  ∧ (∃ r, (r ∉ registrations st)
          ∧ registrations out.2 ≡ₚ registrations st ++ [r]
          ∧ Registration_activity_id r = Activity_id a)
  ∧ ∀ f,
      let out_f :=
        get_db (signup_for_activity (Activity_name a) email) now (with_capacity f st) in
      out_f.1 = out.1
      ∧ registered out_f.2 (Activity_name a) email
      ∧ length (registrations out_f.2) = S (length (registrations st)).
Proof.
  intros Hc Ha Hnot. cbv zeta.
  pose proof (activity_by_name_unique st _ a (activity_names_unique _ Hc) Ha eq_refl)
    as Hact.
  pose proof (registration_for_registered now st a email Hc Ha) as Hiff.
  assert (Hok : (get_db (signup_for_activity (Activity_name a) email) now st).1
                = Ok ("Signed up " +:+ email +:+ " for " +:+ Activity_name a)).
  { destruct (signup_outcome now st (Activity_name a) email)
      as [[Hn _]|[(a' & r & Ha' & Hr & _)|(a' & Ha' & _ & ->)]]; [congruence| |done].
    assert (a' = a) by congruence. subst a'. destruct Hnot. apply Hiff. by exists r. }
  pose proof (signup_Ok_registered _ _ _ _ _ Hok) as Hreg.
  destruct (signup_Ok _ _ _ _ _ Hok) as (a' & Ha' & _ & Hst).
  assert (a' = a) by congruence. subst a'.
  assert (Hregs : registrations
                    (get_db (signup_for_activity (Activity_name a) email) now st).2
                  = registrations st ++
                      [new_registration now (get_or_create_student now email st).1
                         (Activity_id a) (get_or_create_student now email st).2]).
  { rewrite Hst. cbn [add_registration registrations].
    by rewrite get_or_create_student_registrations. }
  split; [done|]. split; [done|]. split.
  - eexists. split; [|split; [by rewrite Hregs|done]].
    intros Hin.
    destruct (next_id_fresh (Registration_id <$> registrations st)).
    apply list_elem_of_fmap. eexists. split; [|exact Hin].
    cbn. by rewrite get_or_create_student_registrations.
  - intros f. rewrite signup_with_capacity. cbn [fst snd].
    split; [done|]. split; [by apply registered_with_capacity|].
    cbn [with_capacity registrations]. rewrite Hregs, length_app. cbn. lia.
Qed.

Lemma signup_ignores_capacity_witness :
  let out := get_db (signup_for_activity "Math Club" newkid) 2 math_club_full in
  consistent math_club_full
  ∧ math_club ∈ activities math_club_full
  ∧ ¬ registered math_club_full "Math Club" newkid
  ∧ (∃ ps, listed_participants 2 math_club_full "Math Club" = Some ps
           ∧ Activity_max_participants math_club ≤ Z.of_nat (length ps))
  ∧ out.1 = Ok "Signed up newkid@mergington.edu for Math Club"
  ∧ registered out.2 "Math Club" newkid.
Proof.
  cbv zeta.
  assert (Hc : consistent math_club_full)
    by (constructor; unfold one_registration_per_pair; compute_done).
  assert (Ha : math_club ∈ activities math_club_full) by compute_done.
  assert (Hn : ¬ registered math_club_full (Activity_name math_club) newkid)
    by compute_done.
  destruct (signup_ignores_capacity math_club_full 2 math_club newkid Hc Ha Hn)
    as (H1 & H2 & _).
  split; [exact Hc|]. split; [exact Ha|]. split; [exact Hn|].
  split; [|exact (conj H1 H2)].
  eexists. split; [vm_compute; reflexivity|]. vm_compute. discriminate.
Defined.

Lemma listed_once now st a email :
  consistent st → a ∈ activities st → registered st (Activity_name a) email →
  ∃ ps, listed_participants now st (Activity_name a) = Some ps
        ∧ occurrences email ps = 1%nat.
Proof.
  intros Hc Ha (s & a' & r & Hs & He & Ha' & Hn & Hr & Hsid & Haid).
  assert (a' = a)
    by (apply (NoDup_fmap_eq Activity_name (activities st)); done || apply Hc).
  subst a'.
  exists (email_of st <$> registrations_of st a).
  split; [by apply listed_participants_consistent|].
  apply occurrences_NoDup; [by apply participants_NoDup|].
  apply participants_elem_of; [done|]. by exists s, r.
Qed.

(** C6. After a signup that succeeded on a consistent store, the listing
    has an entry for the activity, and the email is in its participants
    exactly once. *)
Theorem signup_listed_exactly_once st now now' activity_name email msg :
  consistent st →
  (get_db (signup_for_activity activity_name email) now st).1 = Ok msg →
  ∃ ps,
    listed_participants now'
      (get_db (signup_for_activity activity_name email) now st).2 activity_name
    = Some ps
    ∧ occurrences email ps = 1%nat.
Proof.
  intros Hc Hok.
  pose proof (consistent_signup now st activity_name email Hc) as Hc'.
  pose proof (signup_Ok_registered _ _ _ _ _ Hok) as Hreg.
  destruct (signup_Ok _ _ _ _ _ Hok) as (a & [Ha <-]%activity_by_name_Some & _ & Hst).
  apply listed_once; [done| |done].
  rewrite Hst. cbn. by rewrite get_or_create_student_activities.
Qed.

Lemma signup_listed_exactly_once_witness :
  let out := get_db (signup_for_activity "Chess Club" newkid) 1 (seed 0) in
  consistent (seed 0)
  ∧ out.1 = Ok "Signed up newkid@mergington.edu for Chess Club"
  ∧ ∃ ps, listed_participants 2 out.2 "Chess Club" = Some ps
          ∧ occurrences newkid ps = 1%nat.
Proof.
  cbv zeta.
  assert (Hc : consistent (seed 0)) by apply consistent_seed.
  assert (H : (get_db (signup_for_activity "Chess Club" newkid) 1 (seed 0)).1
              = Ok "Signed up newkid@mergington.edu for Chess Club")
    by (vm_compute; reflexivity).
  split; [exact Hc|]. split; [exact H|].
  exact (signup_listed_exactly_once (seed 0) 1 2 "Chess Club" newkid _ Hc H).
Defined.

(** C2. In a consistent store where a student with this email is
    registered for an activity of this name, signup for the pair fails
    with 400 "Student is already signed up", the store is left as it was,
    and the listing then has the email in the activity's participants
    exactly once. *)
Theorem duplicate_signup_conflict st now now' activity_name email :
  consistent st → registered st activity_name email →
  get_db (signup_for_activity activity_name email) now st
  = (Raise (HTTPException 400 "Student is already signed up"), st)
  ∧ ∃ ps,
      listed_participants now'
        (get_db (signup_for_activity activity_name email) now st).2 activity_name
      = Some ps
      ∧ occurrences email ps = 1%nat.
Proof.
  intros Hc Hreg.
  assert (Hout : get_db (signup_for_activity activity_name email) now st
                 = (Raise (HTTPException 400 "Student is already signed up"), st)).
  { destruct Hreg as (s & a & r & Hs & He & Ha & Hn & Hr & Hsid & Haid).
    assert (Hreg : registered st (Activity_name a) email) by by exists s, a, r.
    apply (registration_for_registered now st a email Hc Ha) in Hreg as [r' Hr'].
    pose proof (activity_by_name_unique st _ a (activity_names_unique _ Hc) Ha Hn)
      as Hact.
    destruct (signup_outcome now st activity_name email)
      as [[Hnone _]|[(a' & r'' & _ & _ & H)|(a' & Ha' & Hnone & _)]];
      [congruence|done|].
    assert (a' = a) by congruence. subst a'. congruence. }
  split; [done|]. rewrite Hout. cbn [snd].
  destruct Hreg as (s & a & r & Hs & He & Ha & <- & Hr & Hsid & Haid).
  apply listed_once; [done..|]. by exists s, a, r.
Qed.

Lemma duplicate_signup_conflict_witness :
  consistent (seed 0) ∧ registered (seed 0) "Chess Club" michael
  ∧ get_db (signup_for_activity "Chess Club" michael) 1 (seed 0)
    = (Raise (HTTPException 400 "Student is already signed up"), seed 0)
  ∧ ∃ ps,
      listed_participants 2
        (get_db (signup_for_activity "Chess Club" michael) 1 (seed 0)).2 "Chess Club"
      = Some ps
      ∧ occurrences michael ps = 1%nat.
Proof.
  assert (Hc : consistent (seed 0)) by apply consistent_seed.
  assert (Hr : registered (seed 0) "Chess Club" michael) by compute_done.
  split; [exact Hc|]. split; [exact Hr|].
  exact (duplicate_signup_conflict (seed 0) 1 2 "Chess Club" michael Hc Hr).
Defined.

(** ** Unregister *)

Lemma filter_all {A} (P : A → Prop) `{!∀ x, Decision (P x)} (l : list A) :
  (∀ x, x ∈ l → P x) → filter P l = l.
Proof.
  induction l as [|x l IH]; intros Hall; [done|].
  rewrite filter_cons_True by (apply Hall; left).
  f_equal. apply IH. intros y Hy. apply Hall. by right.
Qed.

(** Deleting the registration that signup has just added restores the
    table: its key is in no other row. *)
Lemma delete_added_registration now sid aid st :
  delete_registration (new_registration now sid aid st) (add_registration now sid aid st)
  = st.
Proof.
  unfold delete_registration, add_registration. cbn.
  rewrite filter_app, filter_cons_False by (intros H; by apply H).
  rewrite filter_nil, app_nil_r, filter_all; [apply store_eta|].
  intros r Hr Heq.
  destruct (next_id_fresh (Registration_id <$> registrations st)).
  rewrite <- Heq. apply list_elem_of_fmap. by exists r.
Qed.

(** A student appended for an unseen email is in no listing yet. *)
Lemma listing_get_or_create_student now email st :
  consistent st → listing (get_or_create_student now email st).2 = listing st.
Proof.
  intros Hc. pose proof (consistent_get_or_create_student now email st Hc) as Hc1.
  revert Hc1. unfold get_or_create_student.
  destruct (student_by_email st email) as [s0|] eqn:Hs0; [done|].
  cbn [snd]. set (st1 := mkStore _ _ _). intros Hc1.
  assert (Hregs : ∀ a, registrations_of st1 a = registrations_of st a) by done.
  assert (Hem : ∀ a, emails_of st1 (registrations_of st1 a)
                     = emails_of st (registrations_of st a)).
  { intros a. rewrite Hregs.
    rewrite !emails_of_Ok.
    - f_equal. apply list_fmap_ext. intros i r Hi.
      apply list_elem_of_lookup_2, list_elem_of_filter in Hi as [_ Hr].
      destruct (fk_student st r Hc Hr) as (s & Hs & Hid).
      rewrite (email_of_student st r s), (email_of_student st1 r s);
        [done|apply Hc1| |done|apply Hc|done..].
      apply elem_of_app. by left.
    - apply registrations_of_fk, Hc.
    - rewrite <- Hregs. apply registrations_of_fk, Hc1. }
  unfold listing. change (activities st1) with (activities st).
  clearbody st1.
  generalize (∅ : gmap string ActivityInfo). generalize (activities st).
  intros l. induction l as [|a l IH]; intros result; [done|].
  cbn [listing_from]. rewrite Hem.
  destruct (emails_of st (registrations_of st a)); [apply IH|done].
Qed.

(** C5. When signup succeeds on a consistent store, unregister for the
    same activity name and email succeeds on the store it left, and the
    listing is then what it was before the signup: for that activity,
    which is in the listing, and for every other name. *)
Theorem signup_unregister_round_trip st now now' activity_name email msg :
  consistent st →
  (get_db (signup_for_activity activity_name email) now st).1 = Ok msg →
  let st1 := (get_db (signup_for_activity activity_name email) now st).2 in
  let out := get_db (unregister_from_activity activity_name email) now' st1 in
  out.1 = Ok ("Unregistered " +:+ email +:+ " from " +:+ activity_name)
  ∧ (∃ ps, listed_participants now st activity_name = Some ps
           ∧ listed_participants now' out.2 activity_name = Some ps)
  ∧ (∀ name, listed_participants now' out.2 name = listed_participants now st name)
  ∧ registrations out.2 = registrations st.
Proof.
  intros Hc Hok. cbv zeta.
  pose proof (consistent_signup now st activity_name email Hc) as Hc1.
  destruct (signup_Ok _ _ _ _ _ Hok) as (a & Ha & Hnone & Hst).
  destruct (get_or_create_student_in now email st) as (s & Hs & Hid & He).
  set (sid := (get_or_create_student now email st).1) in *.
  set (st0 := (get_or_create_student now email st).2) in *.
  set (st1 := (get_db (signup_for_activity activity_name email) now st).2) in *.
  assert (Hstu : student_by_email st1 email = Some s).
  { apply student_by_email_unique; [apply Hc1| |done]. by rewrite Hst. }
  assert (Hact : activity_by_name st1 activity_name = Some a).
  { unfold activity_by_name. rewrite Hst. cbn [activities add_registration].
    unfold st0. rewrite get_or_create_student_activities. exact Ha. }
  assert (Hreg : registration_for st1 (Student_id s) (Activity_id a)
                 = Some (new_registration now sid (Activity_id a) st0)).
  { rewrite Hid, Hst. unfold registration_for. cbn [registrations add_registration].
    rewrite first_filter_app. fold (registration_for st0 sid (Activity_id a)).
    rewrite Hnone. by rewrite filter_cons_True. }
  assert (Hout : get_db (unregister_from_activity activity_name email) now' st1
                 = (Ok ("Unregistered " +:+ email +:+ " from " +:+ activity_name), st0)).
  { unfold get_db. rewrite unregister_run, Hstu, Hact, Hreg. cbn.
    by rewrite Hst, delete_added_registration. }
  assert (Hlist : ∀ name, listed_participants now' st0 name
                          = listed_participants now st name).
  { intros name. rewrite !listed_participants_listing.
    unfold st0. by rewrite listing_get_or_create_student. }
  rewrite Hout. cbn [fst snd]. split; [done|]. split; [|split; [done|]].
  - apply activity_by_name_Some in Ha as [Ha <-].
    exists (email_of st <$> registrations_of st a).
    rewrite Hlist. split; by apply listed_participants_consistent.
  - unfold st0. apply get_or_create_student_registrations.
Qed.

Lemma signup_unregister_round_trip_witness :
  let st1 := (get_db (signup_for_activity "Chess Club" newkid) 1 (seed 0)).2 in
  let out := get_db (unregister_from_activity "Chess Club" newkid) 2 st1 in
  consistent (seed 0)
  ∧ (get_db (signup_for_activity "Chess Club" newkid) 1 (seed 0)).1
    = Ok "Signed up newkid@mergington.edu for Chess Club"
  ∧ out.1 = Ok "Unregistered newkid@mergington.edu from Chess Club"
  ∧ ∃ ps, listed_participants 1 (seed 0) "Chess Club" = Some ps
          ∧ listed_participants 2 out.2 "Chess Club" = Some ps.
Proof.
  cbv zeta.
  assert (Hc : consistent (seed 0)) by apply consistent_seed.
  assert (H : (get_db (signup_for_activity "Chess Club" newkid) 1 (seed 0)).1
              = Ok "Signed up newkid@mergington.edu for Chess Club")
    by (vm_compute; reflexivity).
  split; [exact Hc|]. split; [exact H|].
  destruct (signup_unregister_round_trip (seed 0) 1 2 "Chess Club" newkid _ Hc H)
    as (H1 & H2 & _).
  exact (conj H1 H2).
Defined.

(** C4, as stated, does not hold: with no registration linking the email
    to the activity name, unregister does not always fail with a 400. In
    the seed, michael@mergington.edu is a student and no activity is
    called "Knitting Club"; unregister answers 404 "Activity not found". *)
Lemma unregister_unmatched_not_always_400 :
  ¬ (∀ st now activity_name email,
       consistent st → ¬ registered st activity_name email →
       ∃ detail,
         get_db (unregister_from_activity activity_name email) now st
         = (Raise (HTTPException 400 detail), st)).
Proof.
  intros H.
  destruct (H (seed 0) 1 "Knitting Club" michael) as [detail Hd].
  - apply consistent_seed.
  - compute_done.
  - vm_compute in Hd. discriminate Hd.
Qed.

Lemma seen_iff_student_by_email st email :
  email ∈ Student_email <$> students st ↔ is_Some (student_by_email st email).
Proof.
  split; [apply seen_student_by_email|].
  intros [s [Hs <-]%student_by_email_Some]. apply list_elem_of_fmap. by exists s.
Qed.

Lemma named_iff_activity_by_name st activity_name :
  activity_name ∈ Activity_name <$> activities st
  ↔ is_Some (activity_by_name st activity_name).
Proof.
  split.
  - intros (a & -> & Ha)%list_elem_of_fmap.
    by apply (first_filter_is_Some (λ a', Activity_name a' = Activity_name a) _ a).
  - intros [a [Ha <-]%activity_by_name_Some]. apply list_elem_of_fmap. by exists a.
Qed.

(** C4, amended. With no registration linking the email to the activity
    name, unregister fails and leaves the store as it was: with 400
    "Student not found" when no student has the email, whether or not the
    activity exists; with 404 "Activity not found" when a student has the
    email and no activity has the name; with 400 "Student is not signed up
    for this activity" when both exist. *)
Theorem unregister_without_registration st now activity_name email :
  ¬ registered st activity_name email →
  let out := get_db (unregister_from_activity activity_name email) now st in
  out.2 = st
  ∧ (email ∉ Student_email <$> students st →
     out.1 = Raise (HTTPException 400 "Student not found"))
  ∧ (email ∈ Student_email <$> students st →
     activity_name ∉ Activity_name <$> activities st →
     out.1 = Raise (HTTPException 404 "Activity not found"))
  ∧ (email ∈ Student_email <$> students st →
     activity_name ∈ Activity_name <$> activities st →
     out.1 = Raise (HTTPException 400 "Student is not signed up for this activity")).
Proof.
  intros Hnot. cbv zeta.
  rewrite seen_iff_student_by_email, named_iff_activity_by_name.
  destruct (unregister_outcome now st activity_name email)
    as [[Hs ->]|[(s & Hs & Ha & ->)|[(s & a & Hs & Ha & Hr & ->)
       |(s & a & r & Hs & Ha & Hr & _)]]]; cbn [fst snd]; rewrite ?Hs, ?Ha.
  1-3: repeat split; intros; try done; exfalso;
    match goal with
    | H : is_Some None |- _ => by destruct H
    | H : ¬ is_Some (Some _) |- _ => destruct H; by eexists
    end.
  destruct Hnot.
  apply student_by_email_Some in Hs as [Hs He].
  apply activity_by_name_Some in Ha as [Ha Hn].
  apply registration_for_Some in Hr as (Hr & Hsid & Haid).
  by exists s, a, r.
Qed.

Lemma unregister_without_registration_witness :
  let unregister n e := get_db (unregister_from_activity n e) 1 (seed 0) in
  ¬ registered (seed 0) "Chess Club" newkid
  ∧ ¬ registered (seed 0) "Knitting Club" newkid
  ∧ ¬ registered (seed 0) "Knitting Club" michael
  ∧ ¬ registered (seed 0) "Math Club" michael
  ∧ unregister "Chess Club" newkid
    = (Raise (HTTPException 400 "Student not found"), seed 0)
  ∧ unregister "Knitting Club" newkid
    = (Raise (HTTPException 400 "Student not found"), seed 0)
  ∧ unregister "Knitting Club" michael
    = (Raise (HTTPException 404 "Activity not found"), seed 0)
  ∧ unregister "Math Club" michael
    = (Raise (HTTPException 400 "Student is not signed up for this activity"), seed 0).
Proof.
  cbv zeta.
  assert (H1 : ¬ registered (seed 0) "Chess Club" newkid) by compute_done.
  assert (H2 : ¬ registered (seed 0) "Knitting Club" newkid) by compute_done.
  assert (H3 : ¬ registered (seed 0) "Knitting Club" michael) by compute_done.
  assert (H4 : ¬ registered (seed 0) "Math Club" michael) by compute_done.
  assert (Hnew : newkid ∉ Student_email <$> students (seed 0)) by compute_done.
  assert (Hmic : michael ∈ Student_email <$> students (seed 0)) by compute_done.
  assert (Hkni : "Knitting Club" ∉ Activity_name <$> activities (seed 0))
    by compute_done.
  assert (Hmat : "Math Club" ∈ Activity_name <$> activities (seed 0)) by compute_done.
  split; [exact H1|]. split; [exact H2|]. split; [exact H3|]. split; [exact H4|].
  destruct (unregister_without_registration (seed 0) 1 "Chess Club" newkid H1)
    as (E1 & F1 & _).
  destruct (unregister_without_registration (seed 0) 1 "Knitting Club" newkid H2)
    as (E2 & F2 & _).
  destruct (unregister_without_registration (seed 0) 1 "Knitting Club" michael H3)
    as (E3 & _ & F3 & _).
  destruct (unregister_without_registration (seed 0) 1 "Math Club" michael H4)
    as (E4 & _ & _ & F4).
  specialize (F1 Hnew). specialize (F2 Hnew).
  specialize (F3 Hmic Hkni). specialize (F4 Hmic Hmat).
  exact (conj (pair_from_projections _ _ _ F1 E1)
           (conj (pair_from_projections _ _ _ F2 E2)
              (conj (pair_from_projections _ _ _ F3 E3)
                 (pair_from_projections _ _ _ F4 E4)))).
Defined.

(** * The rest of the code: listing, unregister, startup *)

(** ** The listing as a function of the store *)

Lemma listing_from_error st l result e :
  listing_from st l result = Raise e → e = AttributeError.
Proof.
  assert (Hem : ∀ regs e', emails_of st regs = Raise e' → e' = AttributeError).
  { induction regs as [|r regs IH]; intros e'; cbn; [done|].
    destruct (student_of st r); [|congruence].
    destruct (emails_of st regs); [done|]. intros [= <-]. by apply IH. }
  revert result. induction l as [|a l IH]; intros result; cbn; [done|].
  destruct (emails_of st (registrations_of st a)) eqn:E; [apply IH|].
  intros [= <-]. by eapply Hem.
Qed.

Lemma emails_of_missing st regs r :
  r ∈ regs → student_of st r = None → ∃ e, emails_of st regs = Raise e.
Proof.
  intros Hr Hnone. induction regs as [|x regs IH]; [by apply elem_of_nil in Hr|].
  cbn. apply elem_of_cons in Hr as [<-|Hr].
  - rewrite Hnone. eauto.
  - destruct (student_of st x); [|eauto].
    destruct (IH Hr) as [e ->]. eauto.
Qed.

Lemma listing_from_missing st l result a :
  a ∈ l → (∃ e, emails_of st (registrations_of st a) = Raise e) →
  ∃ e, listing_from st l result = Raise e.
Proof.
  intros Ha [e He]. revert result.
  induction l as [|b l IH]; intros result; [by apply elem_of_nil in Ha|].
  cbn. apply elem_of_cons in Ha as [<-|Ha].
  - rewrite He. eauto.
  - destruct (emails_of st (registrations_of st b)); [by apply IH|eauto].
Qed.

Lemma listing_absent st result activity_name :
  listing st = Ok result →
  activity_name ∉ Activity_name <$> activities st → result !! activity_name = None.
Proof.
  intros Hm Hno. unfold listing in Hm.
  rewrite (listing_from_other st (activities st) ∅ result activity_name); [done| |done].
  intros b Hb Hn. apply Hno. apply list_elem_of_fmap. by exists b.
Qed.

(** On a consistent store, the participants listed under a name are the
    emails of the registrations of the activity of that name, and a name
    of no activity is not listed. *)
Lemma listed_participants_by_name now st activity_name :
  consistent st →
  listed_participants now st activity_name =
  (λ a, email_of st <$> registrations_of st a) <$> activity_by_name st activity_name.
Proof.
  intros Hc. destruct (activity_by_name st activity_name) as [a|] eqn:Ha.
  - apply activity_by_name_Some in Ha as [Ha <-].
    by apply listed_participants_consistent.
  - rewrite listed_participants_listing.
    destruct (listing_from_Ok st (activities st) ∅ (registration_student_fk _ Hc))
      as [m Hm].
    fold (listing st) in Hm. rewrite Hm.
    rewrite (listing_absent st m activity_name Hm); [done|].
    intros Hin%named_iff_activity_by_name. rewrite Ha in Hin. by destruct Hin.
Qed.

(** X2. Listing writes nothing and does not depend on the clock: for any
    store, consistent or not, the store after [GET /activities] is the
    store before, and a second request, at any time, gets the response of
    the first. *)
Theorem listing_is_read_only st now now' :
  (get_db get_activities now st).2 = st
  ∧ get_db get_activities now' (get_db get_activities now st).2
    = get_db get_activities now st.
Proof. by rewrite !get_activities_run. Qed.

(** X3. On a consistent store the listing succeeds, and its result has
    exactly one entry per activity: under the activity's name, with its
    description, schedule and [max_participants], and with the emails of
    the students registered for it in the order of their registrations.
    A name no activity has is not a key of the result; a store without
    activities lists the empty dict. *)
Theorem listing_entries st now :
  consistent st →
  ∃ result,
    get_db get_activities now st = (Ok result, st)
    ∧ (∀ a, a ∈ activities st →
         result !! Activity_name a =
         Some (mkActivityInfo (Activity_description a) (Activity_schedule a)
                 (Activity_max_participants a)
                 (email_of st <$> registrations_of st a)))
    ∧ (∀ name, name ∉ Activity_name <$> activities st → result !! name = None)
    ∧ (activities st = [] → result = ∅).
Proof.
  intros Hc. rewrite get_activities_run.
  destruct (listing_from_Ok st (activities st) ∅ (registration_student_fk _ Hc))
    as [m Hm].
  fold (listing st) in Hm. exists m. split; [by rewrite Hm|]. split; [|split].
  - intros a Ha.
    destruct (listing_from_lookup _ _ _ _ a (activity_names_unique _ Hc) Ha Hm)
      as (ps & Hps & ->).
    rewrite emails_of_Ok in Hps by (apply registrations_of_fk, Hc).
    unfold info_of. congruence.
  - intros name. by apply listing_absent.
  - intros Hnil. unfold listing in Hm. rewrite Hnil in Hm. cbn in Hm. congruence.
Qed.

Lemma listing_entries_witness :
  consistent chess_club_joined
  ∧ ∃ result,
      get_db get_activities 2 chess_club_joined = (Ok result, chess_club_joined)
      ∧ result !! "Chess Club" =
        Some (mkActivityInfo "Learn strategies and compete in chess tournaments"
                "Fridays, 3:30 PM - 5:00 PM" 12
                [michael; "daniel@mergington.edu"; newkid])
      ∧ result !! "Knitting Club" = None.
Proof.
  assert (Hc : consistent chess_club_joined)
    by (constructor; unfold one_registration_per_pair; compute_done).
  split; [exact Hc|].
  destruct (listing_entries chess_club_joined 2 Hc) as (result & Hrun & Hin & Hout & _).
  exists result. split; [exact Hrun|]. split.
  - apply (Hin (mkActivity 1 "Chess Club"
                  "Learn strategies and compete in chess tournaments"
                  "Fridays, 3:30 PM - 5:00 PM" 12 0 0)).
    compute_done.
  - apply Hout. compute_done.
Defined.

(** X4. [reg.student.email] has no guard: if a registration of some
    activity of the store carries a [student_id] that is the key of no
    student, the listing raises [AttributeError] and the store stays as it
    was. *)
Theorem listing_dangling_registration_raises st now a r :
  a ∈ activities st → r ∈ registrations st →
  Registration_activity_id r = Activity_id a →
  Registration_student_id r ∉ Student_id <$> students st →
  get_db get_activities now st = (Raise AttributeError, st).
Proof.
  intros Ha Hr Haid Hno. rewrite get_activities_run. f_equal.
  assert (Hnone : student_of st r = None).
  { apply (first_filter_None (λ s, Student_id s = Registration_student_id r)).
    intros s Hs Hid. apply Hno. rewrite <- Hid. apply list_elem_of_fmap. by exists s. }
  destruct (listing_from_missing st (activities st) ∅ a Ha) as [e He].
  - apply (emails_of_missing st _ r); [|done]. by apply list_elem_of_filter.
  - fold (listing st) in He. rewrite He. f_equal. by eapply listing_from_error.
Qed.

Lemma listing_dangling_registration_raises_witness :
  (Registration_student_id (mkRegistration 19 99 1 0)
     ∉ Student_id <$> students dangling_store)
  ∧ get_db get_activities 1 dangling_store = (Raise AttributeError, dangling_store).
Proof.
  assert (Hno : Registration_student_id (mkRegistration 19 99 1 0)
                ∉ Student_id <$> students dangling_store) by compute_done.
  split; [exact Hno|].
  apply (listing_dangling_registration_raises dangling_store 1
           (mkActivity 1 "Chess Club"
              "Learn strategies and compete in chess tournaments"
              "Fridays, 3:30 PM - 5:00 PM" 12 0 0)
           (mkRegistration 19 99 1 0)); [compute_done|compute_done|reflexivity|exact Hno].
Defined.

(** X5. On a consistent store, an email is among the participants listed
    for an activity name exactly when a student with that email is
    registered for the activity of that name. *)
Theorem listed_iff_registered st now activity_name email :
  consistent st →
  (∃ ps, listed_participants now st activity_name = Some ps ∧ email ∈ ps)
  ↔ registered st activity_name email.
Proof.
  intros Hc. rewrite listed_participants_by_name by done. split.
  - intros (ps & Hps & Hin).
    destruct (activity_by_name st activity_name) as [a|] eqn:Ha; [|done].
    apply activity_by_name_Some in Ha as [Ha Hn].
    cbn in Hps. simplify_eq.
    apply participants_elem_of in Hin as (s & r & Hs & He & Hr & Hsid & Haid); [|done].
    by exists s, a, r.
  - intros (s & a & r & Hs & He & Ha & Hn & Hr & Hsid & Haid).
    rewrite (activity_by_name_unique st activity_name a) by (done || apply Hc).
    eexists. split; [done|].
    apply participants_elem_of; [done|]. by exists s, r.
Qed.

Lemma listed_iff_registered_witness :
  consistent (seed 0)
  ∧ ((∃ ps, listed_participants 1 (seed 0) "Chess Club" = Some ps ∧ michael ∈ ps)
     ↔ registered (seed 0) "Chess Club" michael).
Proof.
  assert (Hc : consistent (seed 0)) by apply consistent_seed.
  exact (conj Hc (listed_iff_registered (seed 0) 1 "Chess Club" michael Hc)).
Defined.

(** ** What a signup and an unregister do to the listing *)

Lemma activity_by_name_activities st st' activity_name :
  activities st' = activities st →
  activity_by_name st' activity_name = activity_by_name st activity_name.
Proof. unfold activity_by_name. by intros ->. Qed.

Lemma email_of_students st st' r :
  students st' = students st → email_of st' r = email_of st r.
Proof. unfold email_of, student_of. by intros ->. Qed.

Lemma email_of_get_or_create_student now email st r :
  consistent st → r ∈ registrations st →
  email_of (get_or_create_student now email st).2 r = email_of st r.
Proof.
  intros Hc Hr. destruct (fk_student st r Hc Hr) as (s & Hs & Hid).
  pose proof (consistent_get_or_create_student now email st Hc) as Hc1.
  rewrite (email_of_student st r s), (email_of_student _ r s);
    [done|apply Hc1| |done|apply Hc|done..].
  rewrite get_or_create_student_students.
  destruct (student_by_email st email); [done|]. apply elem_of_app. by left.
Qed.

Lemma registrations_of_add_registration now sid aid st b :
  registrations_of (add_registration now sid aid st) b =
  registrations_of st b ++
    (if decide (aid = Activity_id b) then [new_registration now sid aid st] else []).
Proof.
  unfold registrations_of, add_registration. cbn [registrations].
  rewrite filter_app. by f_equal.
Qed.

Lemma registrations_of_delete_registration r st b :
  registrations_of (delete_registration r st) b =
  filter (λ x, Registration_id x ≠ Registration_id r) (registrations_of st b).
Proof.
  unfold registrations_of, delete_registration. cbn [registrations].
  rewrite !list_filter_filter. apply list_filter_iff. intros x. tauto.
Qed.

Lemma activity_by_id st a b :
  consistent st → a ∈ activities st → b ∈ activities st →
  Activity_id a = Activity_id b → a = b.
Proof.
  intros Hc Ha Hb. apply (NoDup_fmap_eq Activity_id (activities st)); [apply Hc|done..].
Qed.

Lemma registration_by_pair st r x :
  consistent st → r ∈ registrations st → x ∈ registrations st →
  Registration_student_id x = Registration_student_id r →
  Registration_activity_id x = Registration_activity_id r → x = r.
Proof.
  intros Hc Hr Hx Hs Ha.
  apply (NoDup_fmap_eq pair_of (registrations st)); [apply Hc|done..|].
  unfold pair_of. congruence.
Qed.

Lemma fmap_filter_equiv {A B} (f : A → B) (P : A → Prop) (Q : B → Prop)
    `{!∀ x, Decision (P x)} `{!∀ y, Decision (Q y)} (l : list A) :
  (∀ x, x ∈ l → P x ↔ Q (f x)) → f <$> filter P l = filter Q (f <$> l).
Proof.
  induction l as [|x l IH]; intros Heq; [done|].
  rewrite fmap_cons, !filter_cons.
  assert (Hx : P x ↔ Q (f x)) by (apply Heq; left).
  rewrite <- IH by (intros y Hy; apply Heq; by right).
  repeat case_decide; try done; tauto.
Qed.

(** The listing after a signup that succeeded. *)
Lemma signup_listing now now' st activity_name email msg :
  consistent st →
  (get_db (signup_for_activity activity_name email) now st).1 = Ok msg →
  ∃ a,
    activity_by_name st activity_name = Some a
    ∧ listed_participants now'
        (get_db (signup_for_activity activity_name email) now st).2 activity_name
      = Some ((email_of st <$> registrations_of st a) ++ [email])
    ∧ ∀ name, name ≠ activity_name →
        listed_participants now'
          (get_db (signup_for_activity activity_name email) now st).2 name
        = listed_participants now st name.
Proof.
  intros Hc Hok.
  pose proof (consistent_signup now st activity_name email Hc) as Hc'.
  destruct (signup_Ok _ _ _ _ _ Hok) as (a & Ha & _ & Hst).
  destruct (get_or_create_student_in now email st) as (s & Hs & Hid & He).
  set (st' := (get_db (signup_for_activity activity_name email) now st).2) in *.
  assert (Hacts : activities st' = activities st).
  { rewrite Hst. cbn. apply get_or_create_student_activities. }
  assert (Hold : ∀ b, email_of st' <$> registrations_of st b
                      = email_of st <$> registrations_of st b).
  { intros b. apply list_fmap_ext. intros i r Hi.
    apply list_elem_of_lookup_2, list_elem_of_filter in Hi as [_ Hr].
    rewrite (email_of_students (get_or_create_student now email st).2 st')
      by by rewrite Hst.
    by apply email_of_get_or_create_student. }
  assert (Hregs : ∀ b, registrations_of st' b =
    registrations_of st b ++
      (if decide (Activity_id a = Activity_id b)
       then [new_registration now (get_or_create_student now email st).1
               (Activity_id a) (get_or_create_student now email st).2]
       else [])).
  { intros b. rewrite Hst, registrations_of_add_registration. f_equal.
    unfold registrations_of. by rewrite get_or_create_student_registrations. }
  exists a. split; [done|]. split.
  - rewrite listed_participants_by_name by done.
    rewrite (activity_by_name_activities st st') by done. rewrite Ha. cbn. f_equal.
    rewrite Hregs, decide_True by done. rewrite fmap_app, Hold. f_equal. cbn. f_equal.
    rewrite (email_of_student st' _ s); [done|apply Hc'| |done].
    by rewrite Hst.
  - intros name Hne. rewrite !listed_participants_by_name by done.
    rewrite (activity_by_name_activities st st') by done.
    destruct (activity_by_name st name) as [b|] eqn:Hb; [|done].
    cbn. f_equal. rewrite Hregs, decide_False, app_nil_r; [apply Hold|].
    intros Hid'. apply Hne.
    apply activity_by_name_Some in Ha as [Ha <-].
    apply activity_by_name_Some in Hb as [Hb <-].
    by rewrite (activity_by_id st a b).
Qed.

(** X6. On a consistent store whose registration keys are below the
    largest key of the engine, a signup that succeeds puts the email at
    the end of the participants listed for that activity, after those
    listed before, and changes what is listed under no other name. *)
Theorem signup_appends_participant st now now' activity_name email msg :
  consistent st → registration_keys_below_max st →
  (get_db (signup_for_activity activity_name email) now st).1 = Ok msg →
  let st' := (get_db (signup_for_activity activity_name email) now st).2 in
  ∃ ps,
    listed_participants now st activity_name = Some ps
    ∧ listed_participants now' st' activity_name = Some (ps ++ [email])
    ∧ ∀ name, name ≠ activity_name →
        listed_participants now' st' name = listed_participants now st name.
Proof.
  intros Hc _ Hok. cbv zeta.
  destruct (signup_listing now now' st activity_name email msg Hc Hok)
    as (a & Ha & Hnew & Hother).
  exists (email_of st <$> registrations_of st a). split; [|done].
  rewrite listed_participants_by_name by done. by rewrite Ha.
Qed.

Lemma signup_appends_participant_witness :
  let st' := (get_db (signup_for_activity "Chess Club" newkid) 1 (seed 0)).2 in
  consistent (seed 0) ∧ registration_keys_below_max (seed 0)
  ∧ (get_db (signup_for_activity "Chess Club" newkid) 1 (seed 0)).1
    = Ok "Signed up newkid@mergington.edu for Chess Club"
  ∧ ∃ ps,
      listed_participants 1 (seed 0) "Chess Club" = Some ps
      ∧ listed_participants 2 st' "Chess Club" = Some (ps ++ [newkid])
      ∧ listed_participants 2 st' "Math Club"
        = listed_participants 1 (seed 0) "Math Club".
Proof.
  cbv zeta.
  assert (Hc : consistent (seed 0)) by apply consistent_seed.
  assert (Hk : registration_keys_below_max (seed 0)) by compute_done.
  assert (H : (get_db (signup_for_activity "Chess Club" newkid) 1 (seed 0)).1
              = Ok "Signed up newkid@mergington.edu for Chess Club")
    by (vm_compute; reflexivity).
  split; [exact Hc|]. split; [exact Hk|]. split; [exact H|].
  destruct (signup_appends_participant (seed 0) 1 2 "Chess Club" newkid _ Hc Hk H)
    as (ps & H1 & H2 & H3).
  exists ps. split; [exact H1|]. split; [exact H2|]. apply H3. discriminate.
Defined.

(** ** Unregister: success *)

Lemma length_filter_remove_key {A B} (f : A → B) `{!EqDecision B} (l : list A) x :
  NoDup (f <$> l) → x ∈ l →
  (length (filter (λ y, f y ≠ f x) l) + 1 = length l)%nat.
Proof.
  induction l as [|y l IH]; [by intros _ ?%elem_of_nil|].
  rewrite fmap_cons. intros [Hy Hl]%NoDup_cons [->|Hx]%elem_of_cons.
  - rewrite filter_cons_False by (intros Hne; by apply Hne).
    rewrite filter_all; [cbn; lia|].
    intros z Hz Heq. apply Hy. rewrite <- Heq. apply list_elem_of_fmap. by exists z.
  - rewrite filter_cons_True.
    + cbn. rewrite <- (IH Hl Hx). lia.
    + intros Heq. apply Hy. rewrite Heq. apply list_elem_of_fmap. by exists x.
Qed.

(** Unregister of a registered pair on a consistent store: the student,
    the activity and the registration it finds, and what it returns. *)
Lemma unregister_registered now st activity_name email :
  consistent st → registered st activity_name email →
  ∃ s a r,
    s ∈ students st ∧ Student_email s = email
    ∧ a ∈ activities st ∧ Activity_name a = activity_name
    ∧ r ∈ registrations st
    ∧ Registration_student_id r = Student_id s
    ∧ Registration_activity_id r = Activity_id a
    ∧ get_db (unregister_from_activity activity_name email) now st
      = (Ok ("Unregistered " +:+ email +:+ " from " +:+ activity_name),
         delete_registration r st).
Proof.
  intros Hc (s & a & r0 & Hs & He & Ha & Hn & Hr0 & Hsid0 & Haid0).
  pose proof (student_by_email_unique st email s (student_emails_unique _ Hc) Hs He)
    as Hstu.
  pose proof (activity_by_name_unique st _ a (activity_names_unique _ Hc) Ha Hn)
    as Hact.
  destruct (first_filter_is_Some
              (λ x, Registration_student_id x = Student_id s
                    ∧ Registration_activity_id x = Activity_id a)
              (registrations st) r0 Hr0 (conj Hsid0 Haid0)) as [r Hr].
  fold (registration_for st (Student_id s) (Activity_id a)) in Hr.
  exists s, a, r.
  apply registration_for_Some in Hr as Hr'. destruct Hr' as (Hin & Hsid & Haid).
  repeat (split; [done|]).
  unfold get_db. rewrite unregister_run, Hstu, Hact, Hr. done.
Qed.

Lemma unregister_Ok now st activity_name email msg :
  (get_db (unregister_from_activity activity_name email) now st).1 = Ok msg →
  registered st activity_name email.
Proof.
  intros Hok.
  destruct (unregister_outcome now st activity_name email)
    as [[_ H]|[(s & _ & _ & H)|[(s & a & _ & _ & _ & H)
       |(s & a & r & Hs & Ha & Hr & H)]]]; rewrite H in Hok; try discriminate Hok.
  apply student_by_email_Some in Hs as [Hs He].
  apply activity_by_name_Some in Ha as [Ha Hn].
  apply registration_for_Some in Hr as (Hr & Hsid & Haid).
  by exists s, a, r.
Qed.

Lemma registered_delete_registration st r activity_name email :
  registered (delete_registration r st) activity_name email →
  registered st activity_name email.
Proof.
  intros (s & a & x & Hs & He & Ha & Hn & [_ Hx]%list_elem_of_filter & Hsid & Haid).
  by exists s, a, x.
Qed.

(** X7. On a consistent store, unregister for a registered pair succeeds:
    it answers "Unregistered {email} from {activity_name}", the table of
    registrations loses exactly one row, the pair is no longer registered,
    and every other pair is registered after exactly if it was before. *)
Theorem unregister_registered_succeeds st now activity_name email :
  consistent st → registered st activity_name email →
  let out := get_db (unregister_from_activity activity_name email) now st in
  out.1 = Ok ("Unregistered " +:+ email +:+ " from " +:+ activity_name)
  ∧ (length (registrations out.2) + 1 = length (registrations st))%nat
  ∧ ¬ registered out.2 activity_name email
  ∧ ∀ name' email', (name', email') ≠ (activity_name, email) →
      registered out.2 name' email' ↔ registered st name' email'.
Proof.
  intros Hc Hreg. cbv zeta.
  destruct (unregister_registered now st activity_name email Hc Hreg)
    as (s & a & r & Hs & He & Ha & Hn & Hr & Hsid & Haid & ->).
  cbn [fst snd]. split; [done|]. split; [|split].
  - cbn. apply (length_filter_remove_key Registration_id); [apply Hc|done].
  - intros (s' & a' & x & Hs' & He' & Ha' & Hn' & [Hne Hx]%list_elem_of_filter
            & Hsid' & Haid').
    cbn in Hs', Ha'.
    assert (s' = s)
      by (apply (NoDup_fmap_eq Student_email (students st)); [apply Hc|done..|congruence]).
    assert (a' = a)
      by (apply (NoDup_fmap_eq Activity_name (activities st)); [apply Hc|done..|congruence]).
    subst s' a'. apply Hne. f_equal.
    apply (registration_by_pair st r x); [done..|congruence|congruence].
  - intros name' email' Hne. split; [apply registered_delete_registration|].
    intros (s' & a' & x & Hs' & He' & Ha' & Hn' & Hx & Hsid' & Haid').
    exists s', a', x. repeat (split; [done|]). split; [|done].
    apply list_elem_of_filter. split; [|done]. intros Hid.
    assert (x = r)
      by (apply (NoDup_fmap_eq Registration_id (registrations st)); [apply Hc|done..]).
    subst x.
    assert (s' = s)
      by (apply (NoDup_fmap_eq Student_id (students st)); [apply Hc|done..|congruence]).
    assert (a' = a) by (apply (activity_by_id st); [done..|congruence]).
    subst s' a'. apply Hne. congruence.
Qed.

Lemma unregister_registered_succeeds_witness :
  let out := get_db (unregister_from_activity "Chess Club" michael) 1 (seed 0) in
  consistent (seed 0) ∧ registered (seed 0) "Chess Club" michael
  ∧ out.1 = Ok "Unregistered michael@mergington.edu from Chess Club"
  ∧ (length (registrations out.2) + 1 = length (registrations (seed 0)))%nat
  ∧ ¬ registered out.2 "Chess Club" michael
  ∧ (registered out.2 "Chess Club" "daniel@mergington.edu"
     ↔ registered (seed 0) "Chess Club" "daniel@mergington.edu").
Proof.
  cbv zeta.
  assert (Hc : consistent (seed 0)) by apply consistent_seed.
  assert (Hr : registered (seed 0) "Chess Club" michael) by compute_done.
  split; [exact Hc|]. split; [exact Hr|].
  destruct (unregister_registered_succeeds (seed 0) 1 "Chess Club" michael Hc Hr)
    as (H1 & H2 & H3 & H4).
  split; [exact H1|]. split; [exact H2|]. split; [exact H3|].
  apply H4. discriminate.
Defined.

(** The listing after an unregister that succeeded. *)
Lemma unregister_listing now now' st activity_name email msg :
  consistent st →
  (get_db (unregister_from_activity activity_name email) now st).1 = Ok msg →
  ∃ a,
    activity_by_name st activity_name = Some a
    ∧ listed_participants now'
        (get_db (unregister_from_activity activity_name email) now st).2 activity_name
      = Some (filter (λ e, e ≠ email) (email_of st <$> registrations_of st a))
    ∧ ∀ name, name ≠ activity_name →
        listed_participants now'
          (get_db (unregister_from_activity activity_name email) now st).2 name
        = listed_participants now st name.
Proof.
  intros Hc Hok. apply unregister_Ok in Hok as Hreg.
  pose proof (consistent_unregister now st activity_name email Hc) as Hc'.
  destruct (unregister_registered now st activity_name email Hc Hreg)
    as (s & a & r & Hs & He & Ha & Hn & Hr & Hsid & Haid & Hout).
  rewrite Hout in *. cbn [snd] in *.
  pose proof (activity_by_name_unique st _ a (activity_names_unique _ Hc) Ha Hn)
    as Hact.
  assert (Hem : ∀ x, email_of (delete_registration r st) x = email_of st x)
    by (intros x; by apply email_of_students).
  exists a. split; [done|]. split.
  - rewrite listed_participants_by_name by done.
    rewrite (activity_by_name_activities st) by done. rewrite Hact. cbn [fmap option_fmap option_map]. f_equal.
    rewrite registrations_of_delete_registration.
    rewrite (list_fmap_ext _ (email_of st) _ (λ _ x _, Hem x)).
    apply fmap_filter_equiv. intros x [Hxa Hx]%list_elem_of_filter.
    rewrite <- He, <- (email_of_student st r s) by (done || apply Hc).
    split.
    + intros Hne Heq. apply Hne. f_equal.
      destruct (fk_student st x Hc Hx) as (sx & Hsx & Hidx).
      rewrite (email_of_student st x sx), (email_of_student st r s) in Heq
        by (done || apply Hc).
      assert (sx = s)
        by (apply (NoDup_fmap_eq Student_email (students st)); [apply Hc|done..]).
      subst sx. apply (registration_by_pair st r x); [done..|congruence|congruence].
    + intros Hne Hid. apply Hne. f_equal.
      apply (NoDup_fmap_eq Registration_id (registrations st)); [apply Hc|done..].
  - intros name Hne. rewrite !listed_participants_by_name by done.
    rewrite (activity_by_name_activities st) by done.
    destruct (activity_by_name st name) as [b|] eqn:Hb; [|done].
    cbn [fmap option_fmap option_map]. f_equal.
    rewrite registrations_of_delete_registration.
    rewrite (list_fmap_ext _ (email_of st) _ (λ _ x _, Hem x)).
    f_equal. apply filter_all. intros x [Hxb Hx]%list_elem_of_filter Hid.
    assert (x = r)
      by (apply (NoDup_fmap_eq Registration_id (registrations st)); [apply Hc|done..]).
    subst x. apply Hne.
    apply activity_by_name_Some in Hb as [Hb <-]. rewrite <- Hn. f_equal.
    apply (activity_by_id st); [done..|congruence].
Qed.

(** X8. An unregister that succeeds on a consistent store removes the
    email from the participants listed for that activity, keeps the others
    in their order, and changes what is listed under no other name. *)
Theorem unregister_removes_participant st now now' activity_name email msg :
  consistent st →
  (get_db (unregister_from_activity activity_name email) now st).1 = Ok msg →
  let st' := (get_db (unregister_from_activity activity_name email) now st).2 in
  ∃ ps,
    listed_participants now st activity_name = Some ps
    ∧ listed_participants now' st' activity_name = Some (filter (λ e, e ≠ email) ps)
    ∧ ∀ name, name ≠ activity_name →
        listed_participants now' st' name = listed_participants now st name.
Proof.
  intros Hc Hok. cbv zeta.
  destruct (unregister_listing now now' st activity_name email msg Hc Hok)
    as (a & Ha & Hnew & Hother).
  exists (email_of st <$> registrations_of st a). split; [|done].
  rewrite listed_participants_by_name by done. by rewrite Ha.
Qed.

Lemma unregister_removes_participant_witness :
  let st' := (get_db (unregister_from_activity "Chess Club" michael) 1 (seed 0)).2 in
  consistent (seed 0)
  ∧ (get_db (unregister_from_activity "Chess Club" michael) 1 (seed 0)).1
    = Ok "Unregistered michael@mergington.edu from Chess Club"
  ∧ ∃ ps,
      listed_participants 1 (seed 0) "Chess Club" = Some ps
      ∧ listed_participants 2 st' "Chess Club" = Some (filter (λ e, e ≠ michael) ps)
      ∧ listed_participants 2 st' "Math Club"
        = listed_participants 1 (seed 0) "Math Club".
Proof.
  cbv zeta.
  assert (Hc : consistent (seed 0)) by apply consistent_seed.
  assert (H : (get_db (unregister_from_activity "Chess Club" michael) 1 (seed 0)).1
              = Ok "Unregistered michael@mergington.edu from Chess Club")
    by (vm_compute; reflexivity).
  split; [exact Hc|]. split; [exact H|].
  destruct (unregister_removes_participant (seed 0) 1 2 "Chess Club" michael _ Hc H)
    as (ps & H1 & H2 & H3).
  exists ps. split; [exact H1|]. split; [exact H2|]. apply H3. discriminate.
Defined.

(** ** Unregister, then the same request or a signup *)

Lemma delete_registration_unregisters st s a r :
  consistent st →
  s ∈ students st → a ∈ activities st → r ∈ registrations st →
  Registration_student_id r = Student_id s →
  Registration_activity_id r = Activity_id a →
  ¬ registered (delete_registration r st) (Activity_name a) (Student_email s).
Proof.
  intros Hc Hs Ha Hr Hsid Haid.
  intros (s' & a' & x & Hs' & He' & Ha' & Hn' & [Hne Hx]%list_elem_of_filter
          & Hsid' & Haid').
  cbn in Hs', Ha'.
  assert (s' = s)
    by (apply (NoDup_fmap_eq Student_email (students st)); [apply Hc|done..]).
  assert (a' = a)
    by (apply (NoDup_fmap_eq Activity_name (activities st)); [apply Hc|done..]).
  subst s' a'. apply Hne. f_equal.
  apply (registration_by_pair st r x); [done..|congruence|congruence].
Qed.

Lemma unregister_Ok_unregisters now st activity_name email msg :
  consistent st →
  (get_db (unregister_from_activity activity_name email) now st).1 = Ok msg →
  let st' := (get_db (unregister_from_activity activity_name email) now st).2 in
  consistent st'
  ∧ ¬ registered st' activity_name email
  ∧ activities st' = activities st ∧ students st' = students st
  ∧ is_Some (student_by_email st' email)
  ∧ is_Some (activity_by_name st' activity_name).
Proof.
  intros Hc Hok. cbv zeta. apply unregister_Ok in Hok as Hreg.
  pose proof (consistent_unregister now st activity_name email Hc) as Hc'.
  destruct (unregister_registered now st activity_name email Hc Hreg)
    as (s & a & r & Hs & He & Ha & Hn & Hr & Hsid & Haid & Hout).
  rewrite Hout in *. cbn [snd] in *. split; [done|]. split; [|split; [done|split; [done|]]].
  - rewrite <- He, <- Hn. by apply delete_registration_unregisters.
  - split.
    + exists s. by apply (student_by_email_unique st email s); [apply Hc|..].
    + exists a. by apply (activity_by_name_unique st _ a); [apply Hc|..].
Qed.

(** X9. After an unregister that succeeded on a consistent store, the
    same request again fails with 400 "Student is not signed up for this
    activity" and changes nothing. *)
Theorem unregister_twice st now now' activity_name email msg :
  consistent st →
  (get_db (unregister_from_activity activity_name email) now st).1 = Ok msg →
  let st' := (get_db (unregister_from_activity activity_name email) now st).2 in
  get_db (unregister_from_activity activity_name email) now' st'
  = (Raise (HTTPException 400 "Student is not signed up for this activity"), st').
Proof.
  intros Hc Hok. cbv zeta.
  destruct (unregister_Ok_unregisters now st activity_name email msg Hc Hok)
    as (Hc' & Hnot & _ & _ & [s Hs] & [a Ha]).
  set (st' := (get_db (unregister_from_activity activity_name email) now st).2) in *.
  destruct (unregister_outcome now' st' activity_name email)
    as [[Hs' _]|[(s' & _ & Ha' & _)|[(s' & a' & _ & _ & _ & H)
       |(s' & a' & r' & Hs' & Ha' & Hr' & H)]]]; [congruence|congruence|done|].
  destruct Hnot.
  apply student_by_email_Some in Hs' as [Hs' He'].
  apply activity_by_name_Some in Ha' as [Ha' Hn'].
  apply registration_for_Some in Hr' as (Hr' & Hsid' & Haid').
  by exists s', a', r'.
Qed.

Lemma unregister_twice_witness :
  let st' := (get_db (unregister_from_activity "Chess Club" michael) 1 (seed 0)).2 in
  consistent (seed 0)
  ∧ (get_db (unregister_from_activity "Chess Club" michael) 1 (seed 0)).1
    = Ok "Unregistered michael@mergington.edu from Chess Club"
  ∧ get_db (unregister_from_activity "Chess Club" michael) 2 st'
    = (Raise (HTTPException 400 "Student is not signed up for this activity"), st').
Proof.
  cbv zeta.
  assert (Hc : consistent (seed 0)) by apply consistent_seed.
  assert (H : (get_db (unregister_from_activity "Chess Club" michael) 1 (seed 0)).1
              = Ok "Unregistered michael@mergington.edu from Chess Club")
    by (vm_compute; reflexivity).
  split; [exact Hc|]. split; [exact H|].
  exact (unregister_twice (seed 0) 1 2 "Chess Club" michael _ Hc H).
Defined.

(** X10. After an unregister that succeeded on a consistent store whose
    registration keys are below the largest key of the engine, a signup
    for the same activity and email succeeds again: the email is listed
    once more, now after the participants that stayed, and the table of
    students is the one from before the unregister. *)
Theorem unregister_then_signup st now now' now'' activity_name email msg :
  consistent st → registration_keys_below_max st →
  (get_db (unregister_from_activity activity_name email) now st).1 = Ok msg →
  let st1 := (get_db (unregister_from_activity activity_name email) now st).2 in
  let out := get_db (signup_for_activity activity_name email) now' st1 in
  out.1 = Ok ("Signed up " +:+ email +:+ " for " +:+ activity_name)
  ∧ (∃ ps, listed_participants now st activity_name = Some ps
           ∧ listed_participants now'' out.2 activity_name
             = Some (filter (λ e, e ≠ email) ps ++ [email]))
  ∧ students out.2 = students st.
Proof.
  intros Hc _ Hok. cbv zeta.
  destruct (unregister_Ok_unregisters now st activity_name email msg Hc Hok)
    as (Hc1 & Hnot & Hacts & Hstus & [s Hs] & [a Ha]).
  destruct (unregister_listing now now' st activity_name email msg Hc Hok)
    as (a0 & Ha0 & Hl1 & _).
  set (st1 := (get_db (unregister_from_activity activity_name email) now st).2) in *.
  assert (Hup : (get_db (signup_for_activity activity_name email) now' st1).1
                = Ok ("Signed up " +:+ email +:+ " for " +:+ activity_name)).
  { destruct (signup_outcome now' st1 activity_name email)
      as [[Hn _]|[(a' & r & Ha' & Hr & _)|(a' & _ & _ & ->)]]; [congruence| |done].
    destruct Hnot. assert (a' = a) by congruence. subst a'.
    apply activity_by_name_Some in Ha as [Ha <-].
    apply (registration_for_registered now' st1 a email Hc1 Ha). by exists r. }
  split; [done|]. split.
  - destruct (signup_listing now' now'' st1 activity_name email _ Hc1 Hup)
      as (a1 & Ha1 & Hl2 & _).
    exists (email_of st <$> registrations_of st a0). split.
    + rewrite listed_participants_by_name by done. by rewrite Ha0.
    + rewrite Hl2. do 2 f_equal.
      rewrite listed_participants_by_name, Ha1 in Hl1 by done.
      cbn in Hl1. congruence.
  - destruct (signup_students now' st1 activity_name email) as [->|[_ ->]]; [done|].
    rewrite get_or_create_student_students, Hs. done.
Qed.

Lemma unregister_then_signup_witness :
  let st1 := (get_db (unregister_from_activity "Chess Club" michael) 1 (seed 0)).2 in
  let out := get_db (signup_for_activity "Chess Club" michael) 2 st1 in
  consistent (seed 0) ∧ registration_keys_below_max (seed 0)
  ∧ (get_db (unregister_from_activity "Chess Club" michael) 1 (seed 0)).1
    = Ok "Unregistered michael@mergington.edu from Chess Club"
  ∧ out.1 = Ok "Signed up michael@mergington.edu for Chess Club"
  ∧ (∃ ps, listed_participants 1 (seed 0) "Chess Club" = Some ps
           ∧ listed_participants 3 out.2 "Chess Club"
             = Some (filter (λ e, e ≠ michael) ps ++ [michael]))
  ∧ students out.2 = students (seed 0).
Proof.
  cbv zeta.
  assert (Hc : consistent (seed 0)) by apply consistent_seed.
  assert (H : (get_db (unregister_from_activity "Chess Club" michael) 1 (seed 0)).1
              = Ok "Unregistered michael@mergington.edu from Chess Club")
    by (vm_compute; reflexivity).
  assert (Hk : registration_keys_below_max (seed 0)) by compute_done.
  split; [exact Hc|]. split; [exact Hk|]. split; [exact H|].
  exact (unregister_then_signup (seed 0) 1 2 3 "Chess Club" michael _ Hc Hk H).
Defined.

(** ** Startup: what [init_db] does to the store it finds *)

Lemma extends_refl st : extends st st.
Proof. by repeat split. Qed.

Lemma extends_trans st1 st2 st3 : extends st1 st2 → extends st2 st3 → extends st1 st3.
Proof.
  intros (?&?&?) (?&?&?). repeat split; by etrans.
Qed.

Lemma insert_extends now o st k st' : insert now o st = Ok (k, st') → extends st st'.
Proof.
  destruct o as [n d sc mx|e n g|[sid|] [aid|]]; cbn; try done.
  - case_decide; [done|]. intros [= _ <-]. repeat split; cbn; try done.
    by apply sublist_inserts_r.
  - case_decide; [done|]. intros [= _ <-]. repeat split; cbn; try done.
    by apply sublist_inserts_r.
  - intros [= _ <-]. repeat split; cbn; try done. by apply sublist_inserts_r.
Qed.

Lemma flush_new_extends now os st : extends st (flush_new now os st).2.
Proof.
  revert st. induction os as [|o os IH]; intros st; cbn; [apply extends_refl|].
  destruct (insert now o st) as [[k st']|e] eqn:Hi; [|apply extends_refl].
  specialize (IH st'). apply insert_extends in Hi.
  destruct (flush_new now os st') as [[ks|e] st'']; cbn in *; by eapply extends_trans.
Qed.

Section hoare_rules.
Context (P : Session → Prop).

Lemma hoare_bind {A B} (m : M A) (k : A → M B) Q :
  hoare P m (λ _, P) → (∀ a, hoare P (k a) Q) → (∀ e s, P s → Q (Raise e) s) →
  hoare P (bind m k) Q.
Proof.
  intros Hm Hk Hr s Hs. unfold bind. specialize (Hm s Hs).
  destruct (m s) as [[a|e] s']; cbn in *; [by apply Hk|by apply Hr].
Qed.

Lemma hoare_bind_inv {A B} (m : M A) (k : A → M B) :
  hoare P m (λ _, P) → (∀ a, hoare P (k a) (λ _, P)) → hoare P (bind m k) (λ _, P).
Proof. intros Hm Hk. by apply hoare_bind. Qed.

Lemma hoare_ret {A} (a : A) : hoare P (ret a) (λ _, P).
Proof. by intros s Hs. Qed.

Lemma hoare_raise {A} e : hoare P (raise (A:=A) e) (λ _, P).
Proof. by intros s Hs. Qed.

Lemma hoare_query {A} (table : Store → list A) : hoare P (query table) (λ _, P).
Proof. by intros s Hs. Qed.

Lemma hoare_for_each {A S} (l : list A) (body : S → A → M S) acc :
  (∀ acc x, hoare P (body acc x) (λ _, P)) → hoare P (for_each l body acc) (λ _, P).
Proof.
  intros Hbody. revert acc. induction l as [|x l IH]; intros acc; cbn.
  - apply hoare_ret.
  - apply hoare_bind_inv; [apply Hbody|apply IH].
Qed.

Lemma hoare_getitem d key : hoare P (getitem d key) (λ _, P).
Proof. unfold getitem. destruct (d !! key); [apply hoare_ret|apply hoare_raise]. Qed.
End hoare_rules.

Lemma hoare_db_add st o : hoare (uncommitted st) (db_add o) (λ _, uncommitted st).
Proof. by intros s (?&?&?). Qed.

Lemma hoare_db_flush st : hoare (uncommitted st) db_flush (λ _, uncommitted st).
Proof.
  intros s (Hp & Hd & He). unfold db_flush.
  pose proof (flush_new_extends (utcnow s) (new s) (txn s)) as Hf.
  destruct (flush_new (utcnow s) (new s) (txn s)) as [[ks|e] st']; cbn in *.
  - rewrite Hd. cbn. split; [done|]. split; [done|]. by eapply extends_trans.
  - split; [done|]. split; [done|]. by eapply extends_trans.
Qed.

Lemma hoare_db_commit st : hoare (uncommitted st) db_commit (seeded_or_untouched st).
Proof.
  intros s Hs. unfold db_commit, bind.
  pose proof (hoare_db_flush st s Hs) as (Hp & Hd & He).
  destruct (db_flush s) as [[ks|e] s']; cbn in *.
  - split; [done|]. intros e [=].
  - split; [rewrite Hp; apply extends_refl|done].
Qed.

Lemma uncommitted_untouched st e s : uncommitted st s → seeded_or_untouched st (Raise e) s.
Proof. intros (Hp & _ & _). split; [rewrite Hp; apply extends_refl|done]. Qed.

Lemma hoare_init_db_body st :
  hoare (uncommitted st) init_db_body (seeded_or_untouched st).
Proof.
  unfold init_db_body.
  apply hoare_bind; [apply hoare_query| |apply uncommitted_untouched].
  intros rows. case_decide.
  { intros s (Hp & _ & _). split; [cbn; rewrite Hp; apply extends_refl|done]. }
  apply hoare_bind; [| |apply uncommitted_untouched].
  { apply hoare_for_each. intros acc [[[n d] sc] mx].
    apply hoare_bind_inv; [apply hoare_db_add|]. intros _.
    apply hoare_bind_inv; [apply hoare_db_flush|]. intros ks. apply hoare_ret. }
  intros activity_map.
  apply hoare_bind; [| |apply uncommitted_untouched].
  { apply hoare_for_each. intros acc [e n].
    apply hoare_bind_inv; [apply hoare_db_add|]. intros _.
    apply hoare_bind_inv; [apply hoare_db_flush|]. intros ks. apply hoare_ret. }
  intros student_map.
  apply hoare_bind; [| |apply uncommitted_untouched].
  { apply hoare_for_each. intros [] [n es].
    apply hoare_bind_inv; [apply hoare_getitem|]. intros aid.
    apply hoare_for_each. intros [] e.
    apply hoare_bind_inv; [apply hoare_getitem|]. intros sid.
    apply hoare_db_add. }
  intros _. apply hoare_db_commit.
Qed.

(** One round of the loop over [initial_students]. *)
Lemma seed_student_step email name (student_map : gmap string (option Z)) s :
  new s = [] → deleted s = [] →
  (db_add (NewStudent email (Some name) None) ;;;
   ks <- db_flush ;;
   ret (<[email := last ks]> student_map)) s =
  if decide (email ∈ Student_email <$> students (txn s))
  then (Raise IntegrityError, mkSession (persisted s) (txn s) [] [] (utcnow s))
  else
    let k := next_id (Student_id <$> students (txn s)) in
    (Ok (<[email := Some k]> student_map),
     mkSession (persisted s)
       (mkStore (activities (txn s))
          (students (txn s) ++ [mkStudent k email (Some name) None (utcnow s)])
          (registrations (txn s)))
       [] [] (utcnow s)).
Proof.
  intros Hn Hd. cbv [bind db_add db_flush ret]. cbn. rewrite Hn, Hd. cbn.
  by case_decide.
Qed.

Lemma seed_students_loop st (l : list (string * string)) :
  NoDup l.*1 →
  ∀ (student_map : gmap string (option Z)) s r s',
    persisted s = st → new s = [] → deleted s = [] →
    for_each l
      (λ (student_map : gmap string (option Z)) '(email, name),
         db_add (NewStudent email (Some name) None) ;;;
         ks <- db_flush ;;
         ret (<[email := last ks]> student_map)) student_map s = (r, s') →
    persisted s' = st
    ∧ ∀ student_map', r = Ok student_map' →
        new s' = [] ∧ deleted s' = [] ∧ utcnow s' = utcnow s
        ∧ activities (txn s') = activities (txn s)
        ∧ registrations (txn s') = registrations (txn s)
        ∧ students (txn s) `sublist_of` students (txn s')
        ∧ (∀ e, e ∉ l.*1 → student_map' !! e = student_map !! e)
        ∧ (∀ email name, (email, name) ∈ l →
             ∃ row, row ∈ students (txn s')
                    ∧ Student_email row = email ∧ Student_name row = Some name
                    ∧ student_map' !! email = Some (Some (Student_id row))).
Proof.
  induction l as [|[email name] l IH]; intros Hnd student_map s r s' Hp Hn Hd Hrun.
  { cbn in Hrun. injection Hrun as <- <-. split; [done|]. intros m [= <-].
    repeat split; try done. intros e n Hin. by apply elem_of_nil in Hin. }
  cbn in Hnd. apply NoDup_cons in Hnd as [Hhead Hnd].
  cbn [for_each] in Hrun. unfold bind at 1 in Hrun.
  rewrite seed_student_step in Hrun by done.
  case_decide as Hin.
  { injection Hrun as <- <-. split; [done|]. intros m [=]. }
  cbn [fst snd] in Hrun. cbv beta iota zeta in Hrun.
  set (k := next_id (Student_id <$> students (txn s))) in *.
  set (row := mkStudent k email (Some name) None (utcnow s)) in *.
  destruct (IH Hnd _ (mkSession _ _ _ _ _) r s' Hp eq_refl eq_refl Hrun) as [IHp IH'].
  split; [done|]. intros m Hm.
  destruct (IH' m Hm) as (H1 & H2 & H3 & H4 & H5 & H6 & H7 & H8).
  cbn in H3, H4, H5, H6.
  split; [done|]. split; [done|]. split; [done|]. split; [done|]. split; [done|].
  split; [|split].
  - etrans; [|exact H6]. by apply sublist_inserts_r.
  - intros e He. cbn in He. apply not_elem_of_cons in He as [Hne He].
    rewrite H7 by done. by apply lookup_insert_ne.
  - intros e n [[= -> ->]|Hl]%elem_of_cons; [|by apply H8].
    exists row. split; [|split; [done|split; [done|]]].
    + eapply elem_of_sublist; [|exact H6]. apply elem_of_app. right. by left.
    + rewrite H7 by done. by apply lookup_insert_eq.
Qed.

(** The loops over [initial_registrations]: the objects they add, pending
    until the commit. *)
Lemma seed_registrations_inner (student_map : gmap string (option Z)) activity_id es :
  ∀ s r s',
    for_each es
      (λ _ email,
         student_id <- getitem student_map email ;;
         db_add (NewRegistration student_id activity_id)) () s = (r, s') →
    persisted s' = persisted s ∧ txn s' = txn s ∧ deleted s' = deleted s
    ∧ utcnow s' = utcnow s
    ∧ ∃ pending,
        new s' = new s ++ pending
        ∧ Forall (λ o, ∃ sid aid, o = NewRegistration sid aid) pending
        ∧ (r = Ok () → ∀ e, e ∈ es →
             ∃ sid, student_map !! e = Some sid
                    ∧ NewRegistration sid activity_id ∈ pending).
Proof.
  induction es as [|email es IH]; intros s r s' Hrun.
  { cbn in Hrun. injection Hrun as <- <-. repeat (split; [done|]).
    exists []. rewrite app_nil_r. repeat split; [done|].
    intros _ e He. by apply elem_of_nil in He. }
  cbn [for_each] in Hrun. unfold bind at 1 in Hrun.
  cbv [bind getitem ret raise db_add] in Hrun.
  destruct (student_map !! email) as [sid|] eqn:Hsid; cbn in Hrun.
  - apply IH in Hrun as (H1 & H2 & H3 & H4 & pending & H5 & H6 & H7).
    cbn in H1, H2, H3, H4, H5.
    repeat (split; [done|]).
    exists (NewRegistration sid activity_id :: pending).
    split; [by rewrite H5, <- app_assoc|]. split.
    + constructor; [by eexists _, _|done].
    + intros Hr e [->|He]%elem_of_cons.
      * exists sid. split; [done|left].
      * destruct (H7 Hr e He) as (sid' & ? & ?). exists sid'. split; [done|by right].
  - injection Hrun as <- <-. repeat (split; [done|]).
    exists []. rewrite app_nil_r. repeat split; [done|]. intros [=].
Qed.

Lemma seed_registrations_loop (activity_map student_map : gmap string (option Z))
    (regs : list (string * list string)) :
  ∀ s r s',
    for_each regs
      (λ _ '(activity_name, student_emails),
         activity_id <- getitem activity_map activity_name ;;
         for_each student_emails
           (λ _ email,
              student_id <- getitem student_map email ;;
              db_add (NewRegistration student_id activity_id)) ()) () s = (r, s') →
    persisted s' = persisted s ∧ txn s' = txn s ∧ deleted s' = deleted s
    ∧ utcnow s' = utcnow s
    ∧ ∃ pending,
        new s' = new s ++ pending
        ∧ Forall (λ o, ∃ sid aid, o = NewRegistration sid aid) pending
        ∧ (r = Ok () → ∀ n es e, (n, es) ∈ regs → e ∈ es →
             ∃ sid aid, activity_map !! n = Some aid ∧ student_map !! e = Some sid
                        ∧ NewRegistration sid aid ∈ pending).
Proof.
  induction regs as [|[n es] regs IH]; intros s r s' Hrun.
  { cbn in Hrun. injection Hrun as <- <-. repeat (split; [done|]).
    exists []. rewrite app_nil_r. repeat split; [done|].
    intros _ n es e Hin. by apply elem_of_nil in Hin. }
  cbn [for_each] in Hrun. unfold bind at 1 in Hrun.
  unfold bind at 1 in Hrun. unfold getitem at 1 in Hrun.
  destruct (activity_map !! n) as [aid|] eqn:Haid; cbn [ret raise] in Hrun.
  - destruct (for_each es _ () s) as [r1 s1] eqn:Hin.
    apply seed_registrations_inner in Hin
      as (H1 & H2 & H3 & H4 & pending1 & H5 & H6 & H7).
    destruct r1 as [[]|e1].
    + apply IH in Hrun as (G1 & G2 & G3 & G4 & pending & G5 & G6 & G7).
      split; [congruence|]. split; [congruence|]. split; [congruence|].
      split; [congruence|].
      exists (pending1 ++ pending). split; [by rewrite G5, H5, app_assoc|]. split.
      * by apply Forall_app.
      * intros Hr n' es' e [[= -> ->]|Hl]%elem_of_cons He.
        -- destruct (H7 eq_refl e He) as (sid & ? & ?).
           exists sid, aid. repeat split; [done..|]. apply elem_of_app. by left.
        -- destruct (G7 Hr n' es' e Hl He) as (sid & aid' & ? & ? & ?).
           exists sid, aid'. repeat split; [done..|]. apply elem_of_app. by right.
    + injection Hrun as <- <-. repeat (split; [done|]).
      exists pending1. repeat split; [done..|]. intros [=].
  - injection Hrun as <- <-. repeat (split; [done|]).
    exists []. rewrite app_nil_r. repeat split; [done|]. intros [=].
Qed.

(** The flush of the commit: one row per pending registration. *)
Lemma flush_new_registrations now pending :
  Forall (λ o, ∃ sid aid, o = NewRegistration sid aid) pending →
  ∀ T r T',
    flush_new now pending T = (r, T') →
    activities T' = activities T ∧ students T' = students T
    ∧ ∀ ks, r = Ok ks → ∀ sid aid, NewRegistration sid aid ∈ pending →
        ∃ sid' aid' row,
          sid = Some sid' ∧ aid = Some aid' ∧ row ∈ registrations T'
          ∧ Registration_student_id row = sid'
          ∧ Registration_activity_id row = aid'.
Proof.
  induction 1 as [|o pending (sid & aid & ->) _ IH]; intros T r T' Hrun.
  { cbn in Hrun. injection Hrun as <- <-. repeat split; [done..|].
    intros ks _ sid aid Hin. by apply elem_of_nil in Hin. }
  cbn [flush_new] in Hrun.
  destruct (insert now (NewRegistration sid aid) T) as [[k T1]|e] eqn:Hins.
  - destruct sid as [sid|], aid as [aid|]; try discriminate Hins.
    cbn in Hins. injection Hins as <- <-.
    destruct (flush_new now pending _) as [r1 T2] eqn:Hrest.
    pose proof (flush_new_extends now pending
                  (mkStore (activities T) (students T)
                     (registrations T ++
                        [mkRegistration (next_id (Registration_id <$> registrations T))
                           sid aid now]))) as (_ & _ & Hsub).
    rewrite Hrest in Hsub. cbn in Hsub.
    apply IH in Hrest as (G1 & G2 & G3). cbn in G1, G2.
    destruct r1 as [ks1|e1]; injection Hrun as <- <-.
    + split; [done|]. split; [done|].
      intros ks _ sid0 aid0 [[= -> ->]|Hin]%elem_of_cons.
      * exists sid, aid,
          (mkRegistration (next_id (Registration_id <$> registrations T)) sid aid now).
        split; [done|]. split; [done|]. split; [|done].
        eapply elem_of_sublist; [|exact Hsub]. apply elem_of_app. right. by left.
      * by apply (G3 ks1).
    + split; [done|]. split; [done|]. intros ks [=].
  - injection Hrun as <- <-. repeat split; [done..|]. intros ks [=].
Qed.

(** One round of the loop over [initial_activities]. *)
Lemma seed_activity_step name description schedule max_participants
    (activity_map : gmap string (option Z)) s :
  new s = [] → deleted s = [] →
  (db_add (NewActivity name description schedule max_participants) ;;;
   ks <- db_flush ;;
   ret (<[name := last ks]> activity_map)) s =
  if decide (name ∈ Activity_name <$> activities (txn s))
  then (Raise IntegrityError, mkSession (persisted s) (txn s) [] [] (utcnow s))
  else
    let k := next_id (Activity_id <$> activities (txn s)) in
    (Ok (<[name := Some k]> activity_map),
     mkSession (persisted s)
       (mkStore
          (activities (txn s) ++
             [mkActivity k name description schedule max_participants
                (utcnow s) (utcnow s)])
          (students (txn s)) (registrations (txn s)))
       [] [] (utcnow s)).
Proof.
  intros Hn Hd. cbv [bind db_add db_flush ret]. cbn. rewrite Hn, Hd. cbn.
  by case_decide.
Qed.

Lemma seed_activities_loop st (l : list (string * string * string * Z)) :
  NoDup ((λ x, x.1.1.1) <$> l) →
  ∀ (activity_map : gmap string (option Z)) s r s',
    persisted s = st → new s = [] → deleted s = [] →
    for_each l
      (λ (activity_map : gmap string (option Z))
         '(name, description, schedule, max_participants),
         db_add (NewActivity name description schedule max_participants) ;;;
         ks <- db_flush ;;
         ret (<[name := last ks]> activity_map)) activity_map s = (r, s') →
    persisted s' = st
    ∧ ∀ activity_map', r = Ok activity_map' →
        new s' = [] ∧ deleted s' = [] ∧ utcnow s' = utcnow s
        ∧ students (txn s') = students (txn s)
        ∧ registrations (txn s') = registrations (txn s)
        ∧ activities (txn s) `sublist_of` activities (txn s')
        ∧ Activity_name <$> activities (txn s')
          = (Activity_name <$> activities (txn s)) ++ ((λ x, x.1.1.1) <$> l)
        ∧ (∀ n, n ∉ (λ x, x.1.1.1) <$> l → activity_map' !! n = activity_map !! n)
        ∧ (∀ x, x ∈ l →
             ∃ row, row ∈ activities (txn s')
                    ∧ Activity_name row = x.1.1.1
                    ∧ activity_map' !! x.1.1.1 = Some (Some (Activity_id row))).
Proof.
  induction l as [|[[[name d] sc] mx] l IH];
    intros Hnd activity_map s r s' Hp Hn Hd Hrun.
  { cbn in Hrun. injection Hrun as <- <-. split; [done|]. intros m [= <-].
    rewrite app_nil_r. repeat split; try done.
    intros x Hin. by apply elem_of_nil in Hin. }
  cbn in Hnd. apply NoDup_cons in Hnd as [Hhead Hnd].
  cbn [for_each] in Hrun. unfold bind at 1 in Hrun.
  rewrite seed_activity_step in Hrun by done.
  case_decide as Hin.
  { injection Hrun as <- <-. split; [done|]. intros m [=]. }
  cbn [fst snd] in Hrun. cbv beta iota zeta in Hrun.
  set (k := next_id (Activity_id <$> activities (txn s))) in *.
  set (row := mkActivity k name d sc mx (utcnow s) (utcnow s)) in *.
  destruct (IH Hnd _ (mkSession _ _ _ _ _) r s' Hp eq_refl eq_refl Hrun) as [IHp IH'].
  split; [done|]. intros m Hm.
  destruct (IH' m Hm) as (H1 & H2 & H3 & H4 & H5 & H6 & H6' & H7 & H8).
  cbn in H3, H4, H5, H6, H6'.
  split; [done|]. split; [done|]. split; [done|]. split; [done|]. split; [done|].
  split; [|split; [|split]].
  - etrans; [|exact H6]. by apply sublist_inserts_r.
  - rewrite H6', fmap_app, <- app_assoc. done.
  - intros e He. cbn in He. apply not_elem_of_cons in He as [Hne He].
    rewrite H7 by done. by apply lookup_insert_ne.
  - intros x [->|Hl]%elem_of_cons; [|by apply H8].
    exists row. split; [|split; [done|]].
    + eapply elem_of_sublist; [|exact H6]. apply elem_of_app. right. by left.
    + cbn. rewrite H7 by done. by apply lookup_insert_eq.
Qed.

(** On a store without activities, an [init_db] that returns has committed
    the whole seed. *)
Lemma init_db_commits_seed st now :
  activities st = [] → (init_db now st).1 = Ok () →
  Activity_name <$> activities (init_db now st).2 = initial_activity_names
  ∧ (∀ email name, (email, name) ∈ initial_students →
       ∃ s, s ∈ students (init_db now st).2
            ∧ Student_email s = email ∧ Student_name s = Some name)
  ∧ (∀ n es e, (n, es) ∈ initial_registrations → e ∈ es →
       registered (init_db now st).2 n e).
Proof.
  intros Hact. destruct (init_db now st) as [r st'] eqn:Hrun. cbn [fst snd].
  intros ->. revert Hrun. unfold init_db, get_db, init_db_body.
  unfold bind at 1. unfold query at 1. cbn [SessionLocal txn]. rewrite Hact.
  cbn [length]. destruct (decide (0 < 0)%nat) as [Hlt|_]; [lia|].
  fold (SessionLocal now st).
  unfold bind at 1.
  destruct (for_each initial_activities _ ∅ _) as [r1 s1] eqn:E1.
  apply (seed_activities_loop st) in E1 as [P1 H1]; [|compute_done|done..].
  destruct r1 as [amap|e1]; [|cbn; intros [=]].
  destruct (H1 amap eq_refl) as (N1 & D1 & U1 & S1 & R1 & _ & A1 & _ & Hamap).
  cbn in U1, S1, R1, A1. rewrite Hact in A1. cbn in A1.
  unfold bind at 1.
  destruct (for_each initial_students _ ∅ s1) as [r2 s2] eqn:E2.
  apply (seed_students_loop st) in E2 as [P2 H2]; [|compute_done|done..].
  destruct r2 as [smap|e2]; [|cbn; intros [=]].
  destruct (H2 smap eq_refl) as (N2 & D2 & U2 & A2 & R2 & _ & _ & Hsmap).
  unfold bind at 1.
  destruct (for_each initial_registrations _ () s2) as [r3 s3] eqn:E3.
  apply seed_registrations_loop in E3
    as (P3 & T3 & D3 & U3 & pending & N3 & Hpend & Hregs).
  destruct r3 as [[]|e3]; [|cbn; intros [=]].
  specialize (Hregs eq_refl).
  unfold db_commit, bind, db_flush. rewrite N3, N2, D3, D2, T3. cbn [app foldr].
  destruct (flush_new (utcnow s3) pending (txn s2)) as [r4 T4] eqn:E4.
  apply (flush_new_registrations _ _ Hpend) in E4 as (A4 & S4 & Hrows).
  destruct r4 as [ks|e4]; [|cbn; intros [=]].
  cbn. intros [= <-]. split; [by rewrite A4, A2, A1|]. split.
  - intros email name Hin. destruct (Hsmap email name Hin) as (row & ? & ? & ? & _).
    exists row. by rewrite S4.
  - intros n es e Hin He.
    destruct (Hregs n es e Hin He) as (sid & aid & Hn & Hs & Hp).
    destruct (Hrows ks eq_refl sid aid Hp)
      as (sid' & aid' & reg & -> & -> & Hreg & Hrs & Hra).
    assert (Hkeys : Forall (λ x, x.1 ∈ (λ y, y.1.1.1) <$> initial_activities
                                 ∧ Forall (λ e, e ∈ initial_students.*1) x.2)
                      initial_registrations) by compute_done.
    pose proof (proj1 (Forall_forall _ _) Hkeys (n, es) Hin) as [Hkn Hke].
    cbn [fst snd] in Hkn, Hke.
    pose proof (proj1 (Forall_forall _ _) Hke e He) as Hmem.
    apply list_elem_of_fmap in Hkn as (x & -> & Hx).
    apply list_elem_of_fmap in Hmem as ([e' en] & -> & Hmem).
    destruct (Hamap x Hx) as (a & Ha & Hname & Hak).
    destruct (Hsmap e' en Hmem) as (row & Hrow & Hre & _ & Hrk).
    cbn in Hs. exists row, a, reg. rewrite S4, A4.
    split; [done|]. split; [done|]. split; [by rewrite A2|].
    split; [done|]. split; [done|]. split; congruence.
Qed.

(** X11. [init_db] is all or nothing, and only ever adds rows. Whatever
    store it is started on, every row the store had is still there when
    it is done, unchanged and in the same order. If it raises, the store
    is exactly as it was. If it returns on a store without activities, it
    has committed the whole seed: the activities are those of
    [initial_activities], by name and in that order, every entry of
    [initial_students] is a student with that email and name, and every
    email [initial_registrations] lists for an activity is registered for
    it. *)
Theorem init_db_all_or_nothing st now :
  extends st (init_db now st).2
  ∧ (∀ e, (init_db now st).1 = Raise e → (init_db now st).2 = st)
  ∧ (activities st = [] → (init_db now st).1 = Ok () →
     Activity_name <$> activities (init_db now st).2 = initial_activity_names
     ∧ (∀ email name, (email, name) ∈ initial_students →
          ∃ s, s ∈ students (init_db now st).2
               ∧ Student_email s = email ∧ Student_name s = Some name)
     ∧ (∀ n es e, (n, es) ∈ initial_registrations → e ∈ es →
          registered (init_db now st).2 n e)).
Proof.
  split; [|split; [|apply init_db_commits_seed]].
  all: unfold init_db, get_db.
  all: assert (Hs : uncommitted st (SessionLocal now st))
    by (split; [done|]; split; [done|]; apply extends_refl).
  all: pose proof (hoare_init_db_body st _ Hs) as [He Hr].
  all: by destruct (init_db_body (SessionLocal now st)) as [r s].
Qed.

Lemma init_db_all_or_nothing_witness :
  (init_db 1 michael_only).1 = Raise IntegrityError
  ∧ (init_db 1 michael_only).2 = michael_only
  ∧ activities newkid_only = []
  ∧ (init_db 1 newkid_only).1 = Ok ()
  ∧ extends newkid_only (init_db 1 newkid_only).2
  ∧ Activity_name <$> activities (init_db 1 newkid_only).2 = initial_activity_names
  ∧ registered (init_db 1 newkid_only).2 "Chess Club" michael.
Proof.
  assert (H : (init_db 1 michael_only).1 = Raise IntegrityError)
    by (vm_compute; reflexivity).
  assert (Hok : (init_db 1 newkid_only).1 = Ok ()) by (vm_compute; reflexivity).
  destruct (init_db_all_or_nothing michael_only 1) as (_ & Hraise & _).
  destruct (init_db_all_or_nothing newkid_only 1) as (Hext & _ & Hall).
  destruct (Hall eq_refl Hok) as (Hnames & _ & Hreg).
  split; [exact H|]. split; [exact (Hraise _ H)|]. split; [reflexivity|].
  split; [exact Hok|]. split; [exact Hext|]. split; [exact Hnames|].
  apply (Hreg "Chess Club" [michael; "daniel@mergington.edu"] michael);
    compute_done.
Defined.

(** X12. [init_db] seeds only a store without activities: on a store that
    has at least one, it returns without writing, whatever the students
    and registrations are. *)
Theorem init_db_skips_initialized_store st now :
  activities st ≠ [] → init_db now st = (Ok (), st).
Proof. apply init_db_initialized. Qed.

Lemma init_db_skips_initialized_store_witness :
  activities (mkStore [math_club] [] []) ≠ []
  ∧ init_db 1 (mkStore [math_club] [] []) = (Ok (), mkStore [math_club] [] []).
Proof.
  assert (H : activities (mkStore [math_club] [] []) ≠ []) by discriminate.
  exact (conj H (init_db_skips_initialized_store _ 1 H)).
Defined.

(** ** Every store the service reaches *)

Lemma reachable_signup now db activity_name email :
  reachable db →
  reachable (get_db (signup_for_activity activity_name email) now db).2.
Proof. intros H. exact (reach_serve (Signup activity_name email) now db H). Qed.

Lemma reachable_signups now db activity_name emails :
  reachable db →
  reachable
    (foldl (λ db email, (get_db (signup_for_activity activity_name email) now db).2)
       db emails).
Proof.
  revert db. induction emails as [|e l IH]; intros db H; [done|].
  cbn [foldl]. by apply IH, reachable_signup.
Qed.

(** X1. Every store the service can reach is consistent: the primary keys
    of each table, the emails of the students and the names of the
    activities have no duplicates, every registration carries the key of a
    student and of an activity of the store, and no (student, activity)
    pair has two registrations. *)
Theorem reachable_store_consistent st : reachable st → consistent st.
Proof. intros H. by apply reachable_consistent. Qed.

Lemma reachable_store_consistent_witness :
  reachable chess_club_joined ∧ consistent chess_club_joined.
Proof.
  assert (H : reachable chess_club_joined)
    by apply reachable_signup, reach_seed.
  exact (conj H (reachable_store_consistent _ H)).
Defined.

Lemma reachable_activities st :
  reachable st → ∃ now, activities st = activities (seed now).
Proof.
  induction 1 as [now|req now db _ [now0 IH]|now db Hr [now0 IH]].
  - by exists now.
  - exists now0. by rewrite activities_serve.
  - exists now0. rewrite init_db_initialized; [done|].
    by apply reachable_consistent.
Qed.

Lemma reachable_activity_names st :
  reachable st → Activity_name <$> activities st = initial_activity_names.
Proof. intros [now ->]%reachable_activities. vm_compute. reflexivity. Qed.

(** X13. No request creates, changes or removes an activity, and a restart
    does not seed again: in every store the service can reach, the table
    of activities is the one [init_db] wrote at first startup, and the
    names are those of [initial_activities], in that order. *)
Theorem reachable_activities_fixed st :
  reachable st →
  (∃ now, activities st = activities (seed now))
  ∧ Activity_name <$> activities st = initial_activity_names.
Proof.
  intros Hr. split; [by apply reachable_activities|by apply reachable_activity_names].
Qed.

Lemma reachable_activities_fixed_witness :
  reachable math_club_full
  ∧ Activity_name <$> activities math_club_full = initial_activity_names.
Proof.
  assert (H : reachable math_club_full)
    by apply reachable_signups, reach_seed.
  exact (conj H (proj2 (reachable_activities_fixed _ H))).
Defined.

(** ** What a client of the service never sees *)

Lemma listing_keys st result :
  consistent st → listing st = Ok result →
  dom result = list_to_set (Activity_name <$> activities st).
Proof.
  intros Hc Hm. apply set_eq. intros name.
  rewrite elem_of_dom, elem_of_list_to_set. split.
  - intros [info Hinfo].
    destruct (decide (name ∈ Activity_name <$> activities st)) as [|Hno]; [done|].
    rewrite (listing_absent st result name Hm Hno) in Hinfo. done.
  - intros (a & -> & Ha)%list_elem_of_fmap.
    destruct (listing_from_lookup _ _ _ _ a (activity_names_unique _ Hc) Ha Hm)
      as (ps & _ & ->).
    eauto.
Qed.

(** X14. In every store the service can reach, [GET /activities] succeeds,
    leaves the store as it is, and the keys of its result are exactly the
    names of [initial_activities]. *)
Theorem reachable_listing_keys st now :
  reachable st →
  ∃ result,
    get_db get_activities now st = (Ok result, st)
    ∧ dom result = list_to_set initial_activity_names.
Proof.
  intros Hr. pose proof (reachable_consistent st Hr) as [Hc _].
  rewrite get_activities_run.
  destruct (listing_from_Ok st (activities st) ∅ (registration_student_fk _ Hc))
    as [m Hm].
  fold (listing st) in Hm. exists m. split; [by rewrite Hm|].
  rewrite (listing_keys st m Hc Hm). by rewrite reachable_activity_names.
Qed.

Lemma reachable_listing_keys_witness :
  reachable math_club_full
  ∧ ∃ result,
      get_db get_activities 9 math_club_full = (Ok result, math_club_full)
      ∧ dom result = list_to_set initial_activity_names.
Proof.
  assert (H : reachable math_club_full)
    by apply reachable_signups, reach_seed.
  exact (conj H (reachable_listing_keys _ 9 H)).
Defined.

(** X15. In every store the service can reach, a request is answered or
    refused, never broken: the result of [GET /activities], signup and
    unregister is a value or an [HTTPException] with status 400 or 404,
    and no [IntegrityError], [AttributeError] or [KeyError] comes out of
    a handler. *)
Theorem reachable_requests_never_break st req now :
  reachable st →
  match (serve req now st).1 with
  | Ok _ => True
  | Raise (HTTPException status_code _) => status_code = 400 ∨ status_code = 404
  | Raise _ => False
  end.
Proof.
  intros Hr. pose proof (reachable_consistent st Hr) as [Hc _].
  destruct req as [|n e|n e]; cbn [serve respond fst].
  - rewrite get_activities_run. cbn [fst].
    destruct (listing_from_Ok st (activities st) ∅ (registration_student_fk _ Hc))
      as [m Hm].
    fold (listing st) in Hm. by rewrite Hm.
  - destruct (signup_outcome now st n e)
      as [[_ ->]|[(a & r & _ & _ & ->)|(a & _ & _ & ->)]]; cbn; auto.
  - destruct (unregister_outcome now st n e)
      as [[_ ->]|[(s & _ & _ & ->)|[(s & a & _ & _ & _ & ->)
         |(s & a & r & _ & _ & _ & ->)]]]; cbn; auto.
Qed.

Lemma reachable_requests_never_break_witness :
  reachable (seed 0)
  ∧ (serve (Unregister "Knitting Club" michael) 1 (seed 0)).1
    = Raise (HTTPException 404 "Activity not found")
  ∧ match (serve (Unregister "Knitting Club" michael) 1 (seed 0)).1 with
    | Ok _ => True
    | Raise (HTTPException status_code _) => status_code = 400 ∨ status_code = 404
    | Raise _ => False
    end.
Proof.
  assert (H : reachable (seed 0)) by apply reach_seed.
  split; [exact H|]. split; [vm_compute; reflexivity|].
  exact (reachable_requests_never_break (seed 0)
           (Unregister "Knitting Club" michael) 1 H).
Defined.

(** X16. An unregister that fails, on any store, leaves the store exactly
    as it was, and fails with one of three errors: 400 "Student not
    found", 404 "Activity not found" or 400 "Student is not signed up for
    this activity". *)
Theorem failed_unregister_persists_nothing st now activity_name email e :
  (get_db (unregister_from_activity activity_name email) now st).1 = Raise e →
  (get_db (unregister_from_activity activity_name email) now st).2 = st
  ∧ (e = HTTPException 400 "Student not found"
     ∨ e = HTTPException 404 "Activity not found"
     ∨ e = HTTPException 400 "Student is not signed up for this activity").
Proof.
  destruct (unregister_outcome now st activity_name email)
    as [[_ ->]|[(s & _ & _ & ->)|[(s & a & _ & _ & _ & ->)
       |(s & a & r & _ & _ & _ & ->)]]]; cbn; intros [= <-]; auto.
Qed.

Lemma failed_unregister_persists_nothing_witness :
  (get_db (unregister_from_activity "Math Club" michael) 1 (seed 0)).1
    = Raise (HTTPException 400 "Student is not signed up for this activity")
  ∧ (get_db (unregister_from_activity "Math Club" michael) 1 (seed 0)).2 = seed 0.
Proof.
  assert (H : (get_db (unregister_from_activity "Math Club" michael) 1 (seed 0)).1
              = Raise (HTTPException 400 "Student is not signed up for this activity"))
    by (vm_compute; reflexivity).
  exact (conj H (proj1 (failed_unregister_persists_nothing _ _ _ _ _ H))).
Defined.

(** ** The seed *)

(** X17. On an empty database [init_db] succeeds at any time: no insert
    violates a unique index and every name and email that
    [initial_registrations] uses is a key of the maps built from
    [initial_activities] and [initial_students]. The store it commits has
    18 students and 18 registrations, and lists every activity of
    [initial_activities] with exactly the emails [initial_registrations]
    gives it, in that order. *)
Theorem init_db_seeds_empty_store now now' :
  init_db now empty_store = (Ok (), seed now)
  ∧ length (students (seed now)) = 18%nat
  ∧ length (registrations (seed now)) = 18%nat
  ∧ get_db get_activities now' (seed now) = (Ok initial_listing, seed now).
Proof.
  split; [|split; [|split]].
  - vm_compute. reflexivity.
  - vm_compute. reflexivity.
  - vm_compute. reflexivity.
  - rewrite get_activities_run. f_equal.
Qed.
